(** * The hybrid conversation manager of [17-context-window-management.py]

    A shallow embedding of the class [ConversationManager] (Part 5 of the
    script): its constructor, [add_turn], [_compress], [build_context] and
    [chat], together with the Python primitives they rely on (negative-index
    slicing, truthiness, [str.strip]) and the module-level [client] that
    both [chat] and [_compress] call.

    Python raises exceptions without rolling anything back, so methods are
    computations in a state-and-exception monad: a state goes in, and either
    a value or an exception comes out together with the state as it was when
    the method returned or raised. *)

From Stdlib Require Import ZArith String Ascii Bool Lia ZifyNat List.
From Stdlib Require Import Decimal DecimalString.
Import ListNotations.

Local Open Scope string_scope.
Local Open Scope Z_scope.
Local Open Scope list_scope.

Notation "s1 +++ s2" := (String.append s1 s2)
  (at level 60, right associativity).

(** ** Python primitives *)

Module Py.

(** The line feed and the double quote, which have no literal of
    their own inside a string. *)
Definition LF : string := String "010"%char EmptyString.
Definition DQUOTE : string := String "034"%char EmptyString.

(** Resolution of a slice bound [i] against a sequence of length [n]:
    a negative bound counts from the end, and the result is clamped to
    [0..n].  Note that [-0] is [0], which is not negative. *)
Definition slice_bound (i : Z) (n : nat) : nat :=
  if i <? 0 then Z.to_nat (Z.max 0 (i + Z.of_nat n))
  else Z.to_nat (Z.min i (Z.of_nat n)).

(** [l[:stop]] *)
Definition slice_to {A} (l : list A) (stop : Z) : list A :=
  firstn (slice_bound stop (length l)) l.

(** [l[start:]] *)
Definition slice_from {A} (l : list A) (start : Z) : list A :=
  skipn (slice_bound start (length l)) l.

(** [str.isspace] on one character.  A character of a [string] stands
    for a code point below 256; the white space there is U+0009..U+000D,
    U+001C..U+0020, U+0085 and U+00A0. *)
Definition isspace (c : ascii) : bool :=
  let n := nat_of_ascii c in
  ((9 <=? n) && (n <=? 13) || (28 <=? n) && (n <=? 32)
   || (n =? 133) || (n =? 160))%nat.

Fixpoint lstrip (s : string) : string :=
  match s with
  | EmptyString => EmptyString
  | String c rest => if isspace c then lstrip rest else s
  end.

Fixpoint rstrip (s : string) : string :=
  match s with
  | EmptyString => EmptyString
  | String c rest =>
      match rstrip rest with
      | EmptyString => if isspace c then EmptyString
                       else String c EmptyString
      | kept => String c kept
      end
  end.

(** [s.strip()] *)
Definition strip (s : string) : string := rstrip (lstrip s).

(** Truth value of an attribute that holds [None] or a [str]: [None] and
    the empty string are false. *)
Definition truthy (o : option string) : bool :=
  match o with
  | None | Some EmptyString => false
  | Some (String _ _) => true
  end.

(** An attribute that holds [None] or a [str], as an f-string renders
    it. *)
Definition format (o : option string) : string :=
  match o with
  | Some s => s
  | None => "None"
  end.

(** [str(n)] for a natural number, as an f-string renders it. *)
Definition str_of_nat (n : nat) : string :=
  NilEmpty.string_of_uint (Nat.to_uint n).

(** [l[i]]: a negative index counts from the end; [None] stands for the
    [IndexError] of an index that is out of range either way. *)
Definition index {A} (l : list A) (i : Z) : option A :=
  let n := Z.of_nat (length l) in
  let j := if i <? 0 then i + n else i in
  if (j <? 0) || (j >=? n) then None else nth_error l (Z.to_nat j).

(** [range(start, stop, step)] as a list, with the length the interpreter
    computes for it.  (A step of 0, a [ValueError] in Python, gives the
    empty list here; no caller passes it.) *)
Definition range (start stop step : Z) : list Z :=
  let n := if step >? 0 then (stop - start + step - 1) / step
           else if step <? 0 then (start - stop - step - 1) / (- step)
           else 0 in
  map (fun k => start + Z.of_nat k * step) (seq 0 (Z.to_nat n)).

(** [len(s)] of a [str]. *)
Definition len (s : string) : Z := Z.of_nat (String.length s).

End Py.

(** ** Exceptions *)

Inductive exn : Type :=
| ServiceError (reason : string)   (* raised by the remote call *)
| AttributeError                   (* [None.strip()] *)
| IndexError.                      (* [msg['parts'][0]] on an empty list *)

(** ** Messages *)

(** [{"text": t}] *)
Record part : Type := { text : string }.

(** [{"role": r, "parts": [...]}] *)
Record message : Type := { role : string; parts : list part }.

(** [{"role": r, "parts": [{"text": t}]}], the only shape the class builds. *)
Definition msg (r t : string) : message :=
  {| role := r; parts := [ {| text := t |} ] |}.

(** ** The remote service *)

Inductive contents : Type :=
| Text (s : string)
| Messages (ms : list message).

(** The keyword arguments of [client.models.generate_content]. *)
Record request : Type :=
  { model : string;
    system_instruction : string;
    req_contents : contents }.

(** What the class reads from a response object: [.text] (which the SDK
    leaves at [None] when the candidate has no text part) and
    [.usage_metadata]. *)
Record response (U : Type) : Type :=
  { response_text : option string;
    usage_metadata : U }.
Arguments response_text {U} _.
Arguments usage_metadata {U} _.

Inductive outcome (U : Type) : Type :=
| Returns (r : response U)
| Raises (e : exn).
Arguments Returns {U} _.
Arguments Raises {U} _.

(** The module-level [client].  Its answer may depend on everything it was
    asked before, so it receives the earlier requests, oldest first. *)
Class Client : Type :=
  { usage : Type;
    generate_content : list request -> request -> outcome usage }.

Definition MODEL : string := "gemini-2.0-flash".

(** ** State *)

(** The attributes of a [ConversationManager] instance. *)
Record ConversationManager : Type :=
  { system_prompt : string;
    max_recent_turns : Z;
    summarize_threshold : Z;
    full_history : list message;
    summary : option string;
    recent_turns : list message;
    turn_count : Z }.

(** What lies outside the instance: the lines printed so far and the
    requests sent to the service so far. *)
Record World : Type :=
  { stdout : list string;
    requests : list request }.

Record State : Type :=
  { self : ConversationManager;
    world : World }.

(** ** The monad of methods *)

Definition M (A : Type) : Type := State -> (exn + A) * State.

Definition ret {A} (a : A) : M A := fun st => (inr a, st).

Definition raise {A} (e : exn) : M A := fun st => (inl e, st).

Definition bind {A B} (m : M A) (k : A -> M B) : M B :=
  fun st =>
    match m st with
    | (inr a, st') => k a st'
    | (inl e, st') => (inl e, st')
    end.

Notation "x <- m ;; k" := (bind m (fun x => k))
  (at level 61, m at next level, right associativity).
Notation "m ;;; k" := (bind m (fun _ => k))
  (at level 61, right associativity).

(** Reading [self] and assigning to its attributes. *)
Definition get_self : M ConversationManager := fun st => (inr (self st), st).

Definition modify_self (f : ConversationManager -> ConversationManager) : M unit :=
  fun st => (inr tt, {| self := f (self st); world := world st |}).

Definition with_full_history (v : list message) (o : ConversationManager) :=
  {| system_prompt := system_prompt o;
     max_recent_turns := max_recent_turns o;
     summarize_threshold := summarize_threshold o;
     full_history := v;
     summary := summary o;
     recent_turns := recent_turns o;
     turn_count := turn_count o |}.

Definition with_summary (v : option string) (o : ConversationManager) :=
  {| system_prompt := system_prompt o;
     max_recent_turns := max_recent_turns o;
     summarize_threshold := summarize_threshold o;
     full_history := full_history o;
     summary := v;
     recent_turns := recent_turns o;
     turn_count := turn_count o |}.

Definition with_recent_turns (v : list message) (o : ConversationManager) :=
  {| system_prompt := system_prompt o;
     max_recent_turns := max_recent_turns o;
     summarize_threshold := summarize_threshold o;
     full_history := full_history o;
     summary := summary o;
     recent_turns := v;
     turn_count := turn_count o |}.

Definition with_turn_count (v : Z) (o : ConversationManager) :=
  {| system_prompt := system_prompt o;
     max_recent_turns := max_recent_turns o;
     summarize_threshold := summarize_threshold o;
     full_history := full_history o;
     summary := summary o;
     recent_turns := recent_turns o;
     turn_count := v |}.

(** The state after one more line went to standard output, and after one
    more request went to the service. *)
Definition printed (line : string) (st : State) : State :=
  {| self := self st;
     world := {| stdout := stdout (world st) ++ [line];
                 requests := requests (world st) |} |}.

Definition sent (req : request) (st : State) : State :=
  {| self := self st;
     world := {| stdout := stdout (world st);
                 requests := requests (world st) ++ [req] |} |}.

(** [print(line)] *)
Definition print (line : string) : M unit :=
  fun st => (inr tt, printed line st).

(** [x.strip()] where [x] is [None] or a [str]. *)
Definition strip_attr (x : option string) : M string :=
  match x with
  | Some s => ret (Py.strip s)
  | None => raise AttributeError
  end.

(** ** The class *)

Section Manager.

Context {client : Client}.

(** [client.models.generate_content(...)]: the request is sent (and so
    recorded) whether the call returns or raises. *)
Definition call_generate_content (req : request) : M (response usage) :=
  fun st =>
    match generate_content (requests (world st)) req with
    | Returns r => (inr r, sent req st)
    | Raises e => (inl e, sent req st)
    end.

(** [__init__]: seven assignments and nothing else.  (The defaults of the
    last two parameters are 3 and 6.) *)
Definition __init__ (system_prompt : string)
           (max_recent_turns summarize_threshold : Z) : ConversationManager :=
  {| system_prompt := system_prompt;
     max_recent_turns := max_recent_turns;
     summarize_threshold := summarize_threshold;
     full_history := [];
     summary := None;
     recent_turns := [];
     turn_count := 0 |}.

(** [ConversationManager(system_prompt, max_recent_turns,
    summarize_threshold)]: the value of the constructor call, an exception
    or the new instance.  The body of [__init__] has no [raise]. *)
Definition construct (system_prompt : string)
           (max_recent_turns summarize_threshold : Z)
  : exn + ConversationManager :=
  inr (__init__ system_prompt max_recent_turns summarize_threshold).

(** The system prompt of the summarisation call. *)
Definition SUMMARIZE_INSTRUCTION : string :=
  "Summarize this conversation in 2-3 sentences. "
  +++ "Capture the key topics, facts, and decisions. Be concise.".

(** The loop of [_compress] over [to_summarize]: one line per message,
    appended to the text accumulated so far. *)
Fixpoint transcript_loop (to_summarize : list message)
         (conversation_text : string) : exn + string :=
  match to_summarize with
  | [] => inr conversation_text
  | m :: rest =>
      match parts m with
      | [] => inl IndexError
      | p :: _ =>
          let role := if String.eqb (role m) "user"
                      then "User" else "Assistant" in
          transcript_loop rest
            (conversation_text +++ role +++ ": " +++ text p +++ Py.LF)
      end
  end.

Definition lift {A} (r : exn + A) : M A :=
  match r with
  | inr a => ret a
  | inl e => raise e
  end.

Definition _compress : M unit :=
  o <- get_self ;;
  let keep_count := max_recent_turns o * 2 in
  let to_summarize := Py.slice_to (recent_turns o) (- keep_count) in
  let to_keep := Py.slice_from (recent_turns o) (- keep_count) in
  print (Py.LF +++ "  [Auto-compressing: summarizing "
         +++ Py.str_of_nat (length to_summarize / 2) +++ " turns, keeping "
         +++ Py.str_of_nat (length to_keep / 2) +++ " recent turns]") ;;;
  let summary_prefix :=
    if Py.truthy (summary o)
    then "Previous summary: " +++ Py.format (summary o) +++ Py.LF +++ Py.LF
    else EmptyString in
  conversation_text <- lift (transcript_loop to_summarize summary_prefix) ;;
  summary_response <-
    call_generate_content
      {| model := MODEL;
         system_instruction := SUMMARIZE_INSTRUCTION;
         req_contents := Text conversation_text |} ;;
  new_summary <- strip_attr (response_text summary_response) ;;
  modify_self (with_summary (Some new_summary)) ;;;
  modify_self (with_recent_turns to_keep) ;;;
  print ("  [New summary: " +++ Py.DQUOTE +++ new_summary
         +++ Py.DQUOTE +++ "]").

Definition add_turn (user_message model_response : string) : M unit :=
  modify_self (fun o =>
    with_full_history (full_history o ++ [msg "user" user_message]) o) ;;;
  modify_self (fun o =>
    with_full_history (full_history o ++ [msg "model" model_response]) o) ;;;
  modify_self (fun o =>
    with_recent_turns (recent_turns o ++ [msg "user" user_message]) o) ;;;
  modify_self (fun o =>
    with_recent_turns (recent_turns o ++ [msg "model" model_response]) o) ;;;
  modify_self (fun o => with_turn_count (turn_count o + 1) o) ;;;
  o <- get_self ;;
  if Z.of_nat (length (recent_turns o) / 2) >? summarize_threshold o
  then _compress
  else ret tt.

Definition ACKNOWLEDGMENT : string :=
  "I recall our previous discussion. How can I help?".

Definition build_context (new_message : string) : M (list message) :=
  o <- get_self ;;
  let context := [] in
  let context :=
    if Py.truthy (summary o)
    then context
         ++ [msg "user" ("[Conversation summary so far: "
                         +++ Py.format (summary o) +++ "]")]
         ++ [msg "model" ACKNOWLEDGMENT]
    else context in
  let context := context ++ recent_turns o in
  let context := context ++ [msg "user" new_message] in
  ret context.

Definition chat (user_message : string) : M (string * usage) :=
  context <- build_context user_message ;;
  o <- get_self ;;
  response <-
    call_generate_content
      {| model := MODEL;
         system_instruction := system_prompt o;
         req_contents := Messages context |} ;;
  model_text <- strip_attr (response_text response) ;;
  add_turn user_message model_text ;;;
  ret (model_text, usage_metadata response).

End Manager.

(** ** Turns

    The class stores a turn as two consecutive messages; the number of
    turns of a message list is [len(...) // 2]. *)

Record Turn : Type := { user_message : string; assistant_message : string }.

Definition messages_of_turn (t : Turn) : list message :=
  [msg "user" (user_message t); msg "model" (assistant_message t)].

Definition flatten_turns (ts : list Turn) : list message :=
  flat_map messages_of_turn ts.

Definition turns_in (ms : list message) : nat := (length ms / 2)%nat.

(** ** Test doubles for the service *)

Module Double.

(** Answers every request with the same text. *)
Definition constant (reply : string) : Client :=
  {| usage := unit;
     generate_content := fun _ _ =>
       Returns {| response_text := Some reply; usage_metadata := tt |} |}.

(** Raises on every request. *)
Definition failing (e : exn) : Client :=
  {| usage := unit;
     generate_content := fun _ _ => Raises e |}.

(** Plays a script: the n-th request gets the n-th outcome, and requests
    past the end of the script raise. *)
Definition scripted (script : list (outcome unit)) : Client :=
  {| usage := unit;
     generate_content := fun sent _ =>
       nth (length sent) script (Raises (ServiceError "script exhausted")) |}.

Definition says (reply : string) : outcome unit :=
  Returns {| response_text := Some reply; usage_metadata := tt |}.

End Double.

Definition fresh_world : World := {| stdout := []; requests := [] |}.

Definition start (o : ConversationManager) : State :=
  {| self := o; world := fresh_world |}.

(** [add_turn] once per turn of [ts], stopping at the first exception. *)
Fixpoint add_turns {client : Client} (ts : list Turn) : M unit :=
  match ts with
  | [] => ret tt
  | t :: rest =>
      add_turn (user_message t) (assistant_message t) ;;; add_turns rest
  end.

Definition T (n : string) : Turn :=
  {| user_message := "q" +++ n; assistant_message := "a" +++ n |}.

(** ** The methods seen from outside

    The locals of the methods as functions of the instance they read, and
    the instances their assignments produce. *)

Definition keep_count (o : ConversationManager) : Z :=
  max_recent_turns o * 2.

Definition to_summarize (o : ConversationManager) : list message :=
  Py.slice_to (recent_turns o) (- keep_count o).

Definition to_keep (o : ConversationManager) : list message :=
  Py.slice_from (recent_turns o) (- keep_count o).

Definition summary_prefix (o : ConversationManager) : string :=
  if Py.truthy (summary o)
  then "Previous summary: " +++ Py.format (summary o) +++ Py.LF +++ Py.LF
  else EmptyString.

Definition announcement (o : ConversationManager) : string :=
  Py.LF +++ "  [Auto-compressing: summarizing "
  +++ Py.str_of_nat (length (to_summarize o) / 2) +++ " turns, keeping "
  +++ Py.str_of_nat (length (to_keep o) / 2) +++ " recent turns]".

Definition report (new_summary : string) : string :=
  "  [New summary: " +++ Py.DQUOTE +++ new_summary +++ Py.DQUOTE +++ "]".

Definition summarize_request (conversation_text : string) : request :=
  {| model := MODEL;
     system_instruction := SUMMARIZE_INSTRUCTION;
     req_contents := Text conversation_text |}.

(** The instance after the two assignments that end [_compress]. *)
Definition compressed (new_summary : string) (o : ConversationManager)
  : ConversationManager :=
  with_recent_turns (to_keep o) (with_summary (Some new_summary) o).

(** The instance after the five statements that open [add_turn]. *)
Definition recorded (u m : string) (o : ConversationManager)
  : ConversationManager :=
  {| system_prompt := system_prompt o;
     max_recent_turns := max_recent_turns o;
     summarize_threshold := summarize_threshold o;
     full_history := (full_history o ++ [msg "user" u]) ++ [msg "model" m];
     summary := summary o;
     recent_turns := (recent_turns o ++ [msg "user" u]) ++ [msg "model" m];
     turn_count := turn_count o + 1 |}.

Definition on_self (f : ConversationManager -> ConversationManager)
           (st : State) : State :=
  {| self := f (self st); world := world st |}.

(** The condition of the [if] in [add_turn], read after the appends. *)
Definition over_threshold (o : ConversationManager) : bool :=
  Z.of_nat (length (recent_turns o) / 2) >? summarize_threshold o.

(** The messages [build_context] puts before the recent turns. *)
Definition summary_exchange (o : ConversationManager) : list message :=
  if Py.truthy (summary o)
  then [msg "user" ("[Conversation summary so far: "
                    +++ Py.format (summary o) +++ "]");
        msg "model" ACKNOWLEDGMENT]
  else [].

Definition chat_request (o : ConversationManager) (user_message : string)
  : request :=
  {| model := MODEL;
     system_instruction := system_prompt o;
     req_contents :=
       Messages (summary_exchange o ++ recent_turns o
                 ++ [msg "user" user_message]) |}.


(** The transcript of a list of turns: for each turn, one line for the
    user message and one line for the assistant message, in order. *)
Definition transcript_line (t : Turn) : string :=
  "User: " +++ user_message t +++ Py.LF
  +++ "Assistant: " +++ assistant_message t +++ Py.LF.

Fixpoint transcript_of_turns (ts : list Turn) : string :=
  match ts with
  | [] => EmptyString
  | t :: rest => transcript_line t +++ transcript_of_turns rest
  end.

(** The context as the specification words it: the summary exchange
    whenever a summary is set, then the recent turns, then the new
    message. *)
Definition spec_context (o : option string) (ts : list Turn)
           (new_message : string) : list message :=
  match o with
  | Some s =>
      [msg "user" ("[Conversation summary so far: " +++ s +++ "]");
       msg "model" ACKNOWLEDGMENT]
  | None => []
  end ++ flatten_turns ts ++ [msg "user" new_message].

(** The instance after the turns [ts] were recorded one by one with no
    compression in between. *)
Definition extended (ts : list Turn) (o : ConversationManager)
  : ConversationManager :=
  {| system_prompt := system_prompt o;
     max_recent_turns := max_recent_turns o;
     summarize_threshold := summarize_threshold o;
     full_history := full_history o ++ flatten_turns ts;
     summary := summary o;
     recent_turns := recent_turns o ++ flatten_turns ts;
     turn_count := turn_count o + Z.of_nat (length ts) |}.

(** ** Sessions

    What a caller can do with an instance: call one of its methods.  A
    call that raises leaves the state as it was at the raise. *)

Inductive call : Type :=
| CallAddTurn (user_message model_response : string)
| CallCompress
| CallBuildContext (new_message : string)
| CallChat (user_message : string).

Definition exec {client : Client} (c : call) (st : State) : State :=
  match c with
  | CallAddTurn u m => snd (add_turn u m st)
  | CallCompress => snd (_compress st)
  | CallBuildContext new_message => snd (build_context new_message st)
  | CallChat u => snd (chat u st)
  end.

(** The states a session can be in: the one right after construction, in
    any world, and those reached from it by calls. *)
Inductive reachable {client : Client} : State -> Prop :=
| reach_init (system_prompt : string) (max_recent_turns summarize_threshold : Z)
             (w : World) :
    reachable {| self := __init__ system_prompt max_recent_turns
                                  summarize_threshold;
                 world := w |}
| reach_call (c : call) (st : State) :
    reachable st -> reachable (exec c st).

(** ** The functions of Parts 2 to 4 *)

(** [truncate_history(history, max_turns)] (the default of [max_turns] is
    4).  It reads no element of [history], so the element type is free. *)
Definition truncate_history {A} (history : list A) (max_turns : Z)
  : M (list A) :=
  let max_messages := max_turns * 2 in
  if Z.of_nat (length history) >? max_messages
  then
    let dropped := Z.of_nat (length history) - max_messages in
    print ("  Truncating: dropping " +++ Py.str_of_nat (Z.to_nat (dropped / 2))
           +++ " oldest turn pairs") ;;;
    ret (Py.slice_from history (- max_messages))
  else ret history.

(** The loop of [sliding_window_by_tokens] over the indices still to
    visit; [break] returns what was kept so far. *)
Fixpoint window_loop (history : list message) (max_total_tokens : Z)
         (indices : list Z) (kept : list message) (running_tokens : Z)
  : exn + (list message * Z) :=
  match indices with
  | [] => inr (kept, running_tokens)
  | i :: rest =>
      match Py.index history i, Py.index history (i + 1) with
      | Some user_msg, Some model_msg =>
          match parts user_msg, parts model_msg with
          | pu :: _, pm :: _ =>
              let pair_tokens := Py.len (text pu) / 4 + Py.len (text pm) / 4 in
              if running_tokens + pair_tokens >? max_total_tokens
              then inr (kept, running_tokens)
              else window_loop history max_total_tokens rest
                     ([user_msg; model_msg] ++ kept)
                     (running_tokens + pair_tokens)
          | _, _ => inl IndexError
          end
      | _, _ => inl IndexError
      end
  end.

(** [sliding_window_by_tokens(history, system_prompt, max_total_tokens)]
    (the default of [max_total_tokens] is 500): no printing, no request,
    only a value or an [IndexError]. *)
Definition sliding_window_by_tokens (history : list message)
           (system_prompt : string) (max_total_tokens : Z)
  : exn + (list message * Z) :=
  window_loop history max_total_tokens
    (Py.range (Z.of_nat (length history) - 2) (-1) (-2))
    [] (Py.len system_prompt / 4).

(** The system prompt of [summarize_history]. *)
Definition SUMMARIZE_HISTORY_INSTRUCTION : string :=
  "Summarize this conversation in 2-3 sentences. "
  +++ "Focus on: what topics were covered, key facts established, "
  +++ "and any decisions made. Be concise.".

(** [summarize_history(history_to_summarize)] *)
Definition summarize_history {client : Client}
           (history_to_summarize : list message) : M string :=
  conversation_text <-
    lift (transcript_loop history_to_summarize EmptyString) ;;
  summary_response <-
    call_generate_content
      {| model := MODEL;
         system_instruction := SUMMARIZE_HISTORY_INSTRUCTION;
         req_contents := Text conversation_text |} ;;
  strip_attr (response_text summary_response).

(** The estimated cost of a turn, as [sliding_window_by_tokens] counts
    it: a quarter of the length of each of its two texts, rounded down. *)
Definition turn_tokens (t : Turn) : Z :=
  Py.len (user_message t) / 4 + Py.len (assistant_message t) / 4.

Definition turns_tokens (ts : list Turn) : Z :=
  fold_right (fun t acc => turn_tokens t + acc) 0 ts.

(** The last [n] elements of a list, all of it when it is shorter. *)
Definition lastn {A} (n : nat) (l : list A) : list A :=
  skipn (length l - n) l.

(** The roles of a context that starts with [n] exchanges and ends with
    the user speaking. *)
Fixpoint alternating (n : nat) : list string :=
  match n with
  | O => ["user"]
  | S k => "user" :: "model" :: alternating k
  end.

(** The indices [2 * (n - 1), ..., 2, 0] that the window loop visits on a
    history of [n] whole turns. *)
Fixpoint evens_down (n : nat) : list Z :=
  match n with
  | O => []
  | S k => Z.of_nat (2 * k) :: evens_down k
  end.

(** The window loop told in turns: walk the turns newest first, keep a turn
    while the running estimate stays within the budget, stop at the first
    one that does not fit. *)
Fixpoint window_turns (max_total_tokens : Z) (newest_first : list Turn)
         (kept : list Turn) (running_tokens : Z) : list Turn * Z :=
  match newest_first with
  | [] => (kept, running_tokens)
  | t :: older =>
      if running_tokens + turn_tokens t >? max_total_tokens
      then (kept, running_tokens)
      else window_turns max_total_tokens older (t :: kept)
             (running_tokens + turn_tokens t)
  end.

(** The last character of a text, if it has one. *)
Fixpoint last_char (s : string) : option ascii :=
  match s with
  | EmptyString => None
  | String c EmptyString => Some c
  | String _ rest => last_char rest
  end.

(** A text with no white space at either end. *)
Definition stripped (s : string) : Prop :=
  (forall c rest, s = String c rest -> Py.isspace c = false)
  /\ (forall c, last_char s = Some c -> Py.isspace c = false).

(** * Properties *)

(** ** Slicing *)

(** The slices [_compress] takes, on a list of six: the usual case, a
    count larger than the list, and a count of zero, where [-0] selects
    from the front. *)
Example slice_usual :
  Py.slice_to [1; 2; 3; 4; 5; 6] (- 4) = [1; 2]
  /\ Py.slice_from [1; 2; 3; 4; 5; 6] (- 4) = [3; 4; 5; 6].
Proof. split; reflexivity. Qed.

Example slice_past_the_front :
  Py.slice_to [1; 2; 3; 4; 5; 6] (- 10) = []
  /\ Py.slice_from [1; 2; 3; 4; 5; 6] (- 10) = [1; 2; 3; 4; 5; 6].
Proof. split; reflexivity. Qed.

Example slice_minus_zero :
  Py.slice_to [1; 2; 3; 4; 5; 6] (- 0) = []
  /\ Py.slice_from [1; 2; 3; 4; 5; 6] (- 0) = [1; 2; 3; 4; 5; 6].
Proof. split; reflexivity. Qed.

Example strip_both_ends :
  Py.strip ("  a b" +++ Py.LF) = "a b" /\ Py.strip "   " = EmptyString.
Proof. split; reflexivity. Qed.

Lemma slice_to_from {A} (l : list A) (i : Z) :
  Py.slice_to l i ++ Py.slice_from l i = l.
Proof. apply firstn_skipn. Qed.

(** A negated even bound against an even length: the bound on messages is
    twice the bound on turns. *)
Lemma slice_bound_double (w : Z) (n : nat) :
  Py.slice_bound (- (w * 2)) (2 * n) = (2 * Py.slice_bound (- w) n)%nat.
Proof.
  unfold Py.slice_bound.
  destruct (- (w * 2) <? 0) eqn:E1; destruct (- w <? 0) eqn:E2;
    try apply Z.ltb_lt in E1; try apply Z.ltb_ge in E1;
    try apply Z.ltb_lt in E2; try apply Z.ltb_ge in E2; lia.
Qed.

(** Keeping a positive number [k] of trailing elements out of at least
    [k]. *)
Lemma slice_bound_tail (k : Z) (n : nat) :
  0 < k <= Z.of_nat n ->
  Py.slice_bound (- k) n = (n - Z.to_nat k)%nat.
Proof.
  intros Hk. unfold Py.slice_bound.
  destruct (- k <? 0) eqn:E.
  - lia.
  - apply Z.ltb_ge in E. lia.
Qed.

(** ** Turns and messages *)

Lemma flatten_turns_length (ts : list Turn) :
  length (flatten_turns ts) = (2 * length ts)%nat.
Proof.
  induction ts as [|t ts IH]; [reflexivity|].
  change (flatten_turns (t :: ts))
    with (messages_of_turn t ++ flatten_turns ts).
  rewrite length_app, IH. simpl. lia.
Qed.

Lemma flatten_turns_app (ts1 ts2 : list Turn) :
  flatten_turns (ts1 ++ ts2) = flatten_turns ts1 ++ flatten_turns ts2.
Proof. apply flat_map_app. Qed.

Lemma flatten_turns_firstn (k : nat) (ts : list Turn) :
  firstn (2 * k) (flatten_turns ts) = flatten_turns (firstn k ts).
Proof.
  revert ts. induction k as [|k IH]; intros ts; [reflexivity|].
  destruct ts as [|t ts]; [reflexivity|].
  replace (2 * S k)%nat with (S (S (2 * k))) by lia.
  change (flatten_turns (t :: ts))
    with (msg "user" (user_message t)
          :: msg "model" (assistant_message t) :: flatten_turns ts).
  rewrite !firstn_cons.
  change (flatten_turns (t :: firstn k ts))
    with (msg "user" (user_message t)
          :: msg "model" (assistant_message t)
          :: flatten_turns (firstn k ts)).
  now rewrite IH.
Qed.

Lemma flatten_turns_skipn (k : nat) (ts : list Turn) :
  skipn (2 * k) (flatten_turns ts) = flatten_turns (skipn k ts).
Proof.
  revert ts. induction k as [|k IH]; intros ts; [reflexivity|].
  destruct ts as [|t ts]; [reflexivity|].
  replace (2 * S k)%nat with (S (S (2 * k))) by lia.
  change (flatten_turns (t :: ts))
    with (msg "user" (user_message t)
          :: msg "model" (assistant_message t) :: flatten_turns ts).
  rewrite !skipn_cons. apply IH.
Qed.

Lemma turns_in_flatten (ts : list Turn) :
  turns_in (flatten_turns ts) = length ts.
Proof.
  unfold turns_in. rewrite flatten_turns_length.
  rewrite Nat.mul_comm. apply Nat.div_mul. discriminate.
Qed.

Lemma turns_in_snoc (ms : list message) (a b : message) :
  turns_in ((ms ++ [a]) ++ [b]) = S (turns_in ms).
Proof.
  unfold turns_in. rewrite !length_app. cbn [length].
  replace (length ms + 1 + 1)%nat with (length ms + 1 * 2)%nat by lia.
  rewrite Nat.div_add by discriminate. lia.
Qed.

(** Slicing a flattened turn list at [-2w] is slicing the turns at [-w]. *)
Lemma slice_to_flatten (ts : list Turn) (w : Z) :
  Py.slice_to (flatten_turns ts) (- (w * 2))
  = flatten_turns (Py.slice_to ts (- w)).
Proof.
  unfold Py.slice_to. rewrite flatten_turns_length, slice_bound_double.
  apply flatten_turns_firstn.
Qed.

Lemma slice_from_flatten (ts : list Turn) (w : Z) :
  Py.slice_from (flatten_turns ts) (- (w * 2))
  = flatten_turns (Py.slice_from ts (- w)).
Proof.
  unfold Py.slice_from. rewrite flatten_turns_length, slice_bound_double.
  apply flatten_turns_skipn.
Qed.

(** ** The methods, step by step *)

Section MethodFacts.

Context {client : Client}.

Lemma compress_unfold (st : State) :
  _compress st =
  let st1 := printed (announcement (self st)) st in
  match transcript_loop (to_summarize (self st)) (summary_prefix (self st)) with
  | inl e => (inl e, st1)
  | inr conversation_text =>
      let req := summarize_request conversation_text in
      match generate_content (requests (world st)) req with
      | Raises e => (inl e, sent req st1)
      | Returns r =>
          match response_text r with
          | None => (inl AttributeError, sent req st1)
          | Some t =>
              (inr tt,
               printed (report (Py.strip t))
                 (on_self (compressed (Py.strip t)) (sent req st1)))
          end
      end
  end.
Proof.
  unfold _compress, bind, get_self, print, lift, call_generate_content.
  cbn zeta. fold (keep_count (self st)). fold (to_summarize (self st)).
  fold (to_keep (self st)). fold (summary_prefix (self st)).
  fold (announcement (self st)).
  destruct (transcript_loop _ _) as [e|conversation_text]; [reflexivity|].
  cbn [ret]. fold (summarize_request conversation_text).
  change (requests (world (printed (announcement (self st)) st)))
    with (requests (world st)).
  destruct (generate_content _ _) as [r|e]; [|reflexivity].
  destruct (response_text r) as [t|]; reflexivity.
Qed.

Lemma add_turn_unfold (u m : string) (st : State) :
  add_turn u m st =
  if over_threshold (recorded u m (self st))
  then _compress (on_self (recorded u m) st)
  else (inr tt, on_self (recorded u m) st).
Proof.
  unfold add_turn, bind, modify_self, get_self, over_threshold.
  cbn [self world recent_turns summarize_threshold with_turn_count
       with_recent_turns with_full_history recorded].
  destruct (_ >? _); reflexivity.
Qed.

Lemma build_context_unfold (new_message : string) (st : State) :
  build_context new_message st =
  (inr (summary_exchange (self st) ++ recent_turns (self st)
        ++ [msg "user" new_message]), st).
Proof.
  unfold build_context, bind, get_self, ret, summary_exchange.
  destruct (Py.truthy (summary (self st))); cbn [app];
    now rewrite <- ?app_assoc.
Qed.

Lemma chat_unfold (user_message : string) (st : State) :
  chat user_message st =
  let req := chat_request (self st) user_message in
  match generate_content (requests (world st)) req with
  | Raises e => (inl e, sent req st)
  | Returns r =>
      match response_text r with
      | None => (inl AttributeError, sent req st)
      | Some t =>
          match add_turn user_message (Py.strip t) (sent req st) with
          | (inr _, st') => (inr (Py.strip t, usage_metadata r), st')
          | (inl e, st') => (inl e, st')
          end
      end
  end.
Proof.
  unfold chat. unfold bind at 1. rewrite build_context_unfold.
  unfold bind at 1. unfold get_self. unfold bind at 1.
  unfold call_generate_content. fold (chat_request (self st) user_message).
  destruct (generate_content _ _) as [r|e]; [|reflexivity].
  unfold bind at 1. destruct (response_text r) as [t|]; [|reflexivity].
  cbn [strip_attr ret]. unfold bind at 1.
  destruct (add_turn _ _ _) as [[e|[]] st']; reflexivity.
Qed.

End MethodFacts.

(** ** Compression *)

Ltac div2_lia := zify; Z.to_euclidean_division_equations; lia.

Section Compression.

Context {client : Client}.

(** What a successful [_compress] did. *)
Lemma compress_returns_inv (st st' : State) :
  _compress st = (inr tt, st') ->
  exists conversation_text r t,
    transcript_loop (to_summarize (self st)) (summary_prefix (self st))
    = inr conversation_text
    /\ generate_content (requests (world st))
         (summarize_request conversation_text) = Returns r
    /\ response_text r = Some t
    /\ self st' = compressed (Py.strip t) (self st)
    /\ requests (world st')
       = requests (world st) ++ [summarize_request conversation_text].
Proof.
  rewrite compress_unfold. cbn zeta.
  destruct (transcript_loop _ _) as [e|conversation_text]; [discriminate|].
  destruct (generate_content _ _) as [r|e] eqn:Hcall; [|discriminate].
  destruct (response_text r) as [t|] eqn:Htext; [|discriminate].
  intros H. injection H as <-.
  exists conversation_text, r, t. repeat split; assumption.
Qed.

(** [_compress] returns as soon as the transcript can be rendered and the
    service answers with a text. *)
Lemma compress_returns (st : State) (conversation_text t : string)
      (r : response usage) :
  transcript_loop (to_summarize (self st)) (summary_prefix (self st))
  = inr conversation_text ->
  generate_content (requests (world st))
    (summarize_request conversation_text) = Returns r ->
  response_text r = Some t ->
  exists st', _compress st = (inr tt, st')
              /\ self st' = compressed (Py.strip t) (self st).
Proof.
  intros Hloop Hcall Htext. rewrite compress_unfold. cbn zeta.
  rewrite Hloop, Hcall, Htext. eexists. split; reflexivity.
Qed.

(** A [_compress] that raises has assigned to no attribute. *)
Lemma compress_raises_inv (st st' : State) (e : exn) :
  _compress st = (inl e, st') -> self st' = self st.
Proof.
  rewrite compress_unfold. cbn zeta.
  destruct (transcript_loop _ _) as [e0|conversation_text].
  - intros H. injection H as _ <-. reflexivity.
  - destruct (generate_content _ _) as [r|e0].
    + destruct (response_text r) as [t|]; [discriminate|].
      intros H. injection H as _ <-. reflexivity.
    + intros H. injection H as _ <-. reflexivity.
Qed.

(** C1 (amended).  In a state where the number of turns in [recent_turns]
    exceeds [summarize_threshold] and [max_recent_turns] is positive and at
    most that number of turns, a [_compress] that returns leaves exactly
    [max_recent_turns] turns in [recent_turns]; what it dropped is a prefix
    of the old list, and the number of turns in it is the old number of
    turns minus [max_recent_turns]. *)
Theorem compress_postcondition (st st' : State) :
  summarize_threshold (self st)
    < Z.of_nat (turns_in (recent_turns (self st))) ->
  0 < max_recent_turns (self st)
    <= Z.of_nat (turns_in (recent_turns (self st))) ->
  _compress st = (inr tt, st') ->
  Z.of_nat (turns_in (recent_turns (self st'))) = max_recent_turns (self st)
  /\ exists dropped,
       recent_turns (self st) = dropped ++ recent_turns (self st')
       /\ Z.of_nat (turns_in dropped)
          = Z.of_nat (turns_in (recent_turns (self st)))
            - max_recent_turns (self st).
Proof.
  intros _ Hw Hrun.
  destruct (compress_returns_inv _ _ Hrun) as (text & r & t & _ & _ & _ & Hself & _).
  rewrite Hself. cbn [compressed with_recent_turns recent_turns].
  assert (Hk : 0 < keep_count (self st)
               <= Z.of_nat (length (recent_turns (self st)))).
  { unfold keep_count, turns_in in *. div2_lia. }
  assert (Hb : Py.slice_bound (- keep_count (self st))
                 (length (recent_turns (self st)))
               = (length (recent_turns (self st))
                  - Z.to_nat (keep_count (self st)))%nat)
    by (apply slice_bound_tail; exact Hk).
  split.
  - unfold to_keep, Py.slice_from, turns_in. rewrite length_skipn, Hb.
    unfold keep_count, turns_in in *. div2_lia.
  - exists (to_summarize (self st)). split.
    + symmetry. apply slice_to_from.
    + unfold to_summarize, Py.slice_to, turns_in.
      rewrite length_firstn, Hb.
      unfold keep_count, turns_in in *. div2_lia.
Qed.

End Compression.

(** The state in which the fifth [add_turn] of a session with window 2 and
    threshold 4 invokes [_compress]: three turns are dropped, two are
    kept. *)
Lemma compress_postcondition_witness :
  let client := Double.constant "S" in
  let st := on_self (recorded "q5" "a5")
              (snd (add_turns [T "1"; T "2"; T "3"; T "4"]
                      (start (__init__ "sys" 2 4)))) in
  let st' := snd (_compress st) in
  recent_turns (self st') = flatten_turns [T "4"; T "5"]
  /\ Z.of_nat (turns_in (recent_turns (self st'))) = 2
  /\ exists dropped,
       recent_turns (self st) = dropped ++ recent_turns (self st')
       /\ Z.of_nat (turns_in dropped) = 5 - 2.
Proof.
  intros client st st'. split; [reflexivity|].
  apply (compress_postcondition (client := client) st st').
  - vm_compute. reflexivity.
  - vm_compute. split; [reflexivity | discriminate].
  - vm_compute. reflexivity.
Defined.

(** Counterexample to C1 as stated.  With window 5 and threshold 3 the
    fourth [add_turn] invokes [_compress] on four turns; it returns, and
    all four turns are still there, not five.  With window 0 it keeps
    all four as well, not none. *)
Lemma compress_postcondition_needs_window_within_turns :
  let client := Double.constant "S" in
  let before w :=
    on_self (recorded "q4" "a4")
      (snd (add_turns [T "1"; T "2"; T "3"] (start (__init__ "sys" w 3)))) in
  (summarize_threshold (self (before 5))
     < Z.of_nat (turns_in (recent_turns (self (before 5))))
   /\ fst (_compress (before 5)) = inr tt
   /\ Z.of_nat (turns_in (recent_turns (self (snd (_compress (before 5))))))
      = 4
   /\ Z.of_nat (turns_in (recent_turns (self (snd (_compress (before 5))))))
      <> max_recent_turns (self (before 5)))
  /\ (summarize_threshold (self (before 0))
        < Z.of_nat (turns_in (recent_turns (self (before 0))))
      /\ fst (_compress (before 0)) = inr tt
      /\ Z.of_nat (turns_in (recent_turns (self (snd (_compress (before 0))))))
         = 4
      /\ Z.of_nat (turns_in (recent_turns (self (snd (_compress (before 0))))))
         <> max_recent_turns (self (before 0))).
Proof.
  intros client before. repeat split; vm_compute; discriminate.
Qed.

(** ** Failure of the summarisation call *)

Section CompressionFailure.

Context {client : Client}.

(** Whatever [_compress] does afterwards, [add_turn] has first recorded
    the turn. *)
Lemma add_turn_raises_inv (u m : string) (st st' : State) (e : exn) :
  add_turn u m st = (inl e, st') ->
  over_threshold (recorded u m (self st)) = true
  /\ _compress (on_self (recorded u m) st) = (inl e, st')
  /\ self st' = recorded u m (self st).
Proof.
  rewrite add_turn_unfold.
  destruct (over_threshold _); [|discriminate].
  intros H. repeat split; [exact H|].
  apply compress_raises_inv in H. exact H.
Qed.

(** C2.  A [_compress] that raises leaves [recent_turns] and [summary] as
    they were; when the summarisation call raises [e], so does [_compress];
    and when [add_turn] invoked it, [add_turn] raises [e] too, with the
    turn it had just appended still at the end of [recent_turns] and
    [summary] unchanged. *)
Theorem compress_failure_is_atomic (st : State) :
  (forall e st',
      _compress st = (inl e, st') ->
      recent_turns (self st') = recent_turns (self st)
      /\ summary (self st') = summary (self st))
  /\ (forall conversation_text e,
         transcript_loop (to_summarize (self st)) (summary_prefix (self st))
         = inr conversation_text ->
         generate_content (requests (world st))
           (summarize_request conversation_text) = Raises e ->
         fst (_compress st) = inl e)
  /\ (forall u m e st',
         over_threshold (recorded u m (self st)) = true ->
         _compress (on_self (recorded u m) st) = (inl e, st') ->
         add_turn u m st = (inl e, st')
         /\ recent_turns (self st')
            = recent_turns (self st) ++ [msg "user" u; msg "model" m]
         /\ summary (self st') = summary (self st)).
Proof.
  split; [|split].
  - intros e st' H. apply compress_raises_inv in H. now rewrite H.
  - intros conversation_text e Hloop Hcall.
    rewrite compress_unfold. cbn zeta. now rewrite Hloop, Hcall.
  - intros u m e st' Hover Hrun. rewrite add_turn_unfold, Hover.
    split; [exact Hrun|].
    apply compress_raises_inv in Hrun. rewrite Hrun.
    cbn [on_self self recorded recent_turns summary].
    rewrite <- app_assoc. split; reflexivity.
Qed.

End CompressionFailure.

(** The fifth turn of a session with window 2 and threshold 4 triggers a
    compression; with a service that raises, the turn is kept and nothing
    else changes. *)
Lemma compress_failure_is_atomic_witness :
  let client := Double.failing (ServiceError "503") in
  let st := snd (add_turns [T "1"; T "2"; T "3"; T "4"]
                   (start (__init__ "sys" 2 4))) in
  exists st',
    add_turn "q5" "a5" st = (inl (ServiceError "503"), st')
    /\ recent_turns (self st')
       = recent_turns (self st) ++ [msg "user" "q5"; msg "model" "a5"]
    /\ summary (self st') = summary (self st).
Proof.
  intros client st.
  destruct (compress_failure_is_atomic (client := client) st)
    as (_ & _ & Hadd).
  exists (snd (add_turn "q5" "a5" st)).
  apply Hadd; vm_compute; reflexivity.
Defined.

(** ** The context sent to the service *)

Section ContextAssembly.

Context {client : Client}.

Lemma truthy_nonempty (s : string) :
  s <> EmptyString -> Py.truthy (Some s) = true.
Proof. destruct s; [congruence | reflexivity]. Qed.

(** C3 (amended).  With [recent_turns] holding the turns [ts],
    [build_context] returns, in order: the summary exchange (a user message
    carrying the summary, then the acknowledgment) when [summary] is a
    non-empty text, and nothing when it is [None] or the empty text; the
    two messages of each turn of [ts], in order; the new user message.  On
    a fresh instance this is the new message alone, and with a non-empty
    summary and two turns it is seven messages. *)
Theorem build_context_composition
        (st : State) (ts : list Turn) (new_message : string) :
  recent_turns (self st) = flatten_turns ts ->
  exists context,
    build_context new_message st = (inr context, st)
    /\ (forall s, summary (self st) = Some s -> s <> EmptyString ->
          context = spec_context (Some s) ts new_message)
    /\ (summary (self st) = None \/ summary (self st) = Some EmptyString ->
          context = flatten_turns ts ++ [msg "user" new_message])
    /\ (summary (self st) = None -> ts = [] ->
          context = [msg "user" new_message])
    /\ (forall s, summary (self st) = Some s -> s <> EmptyString ->
          length ts = 2%nat -> length context = 7%nat).
Proof.
  intros Hts. eexists. split; [apply build_context_unfold|].
  rewrite Hts. unfold summary_exchange, spec_context.
  split; [|split; [|split]].
  - intros s Hs Hne. rewrite Hs, (truthy_nonempty s Hne). reflexivity.
  - intros [Hs|Hs]; rewrite Hs; reflexivity.
  - intros Hs ->. rewrite Hs. reflexivity.
  - intros s Hs Hne Hlen. rewrite Hs, (truthy_nonempty s Hne).
    rewrite !length_app, flatten_turns_length, Hlen. reflexivity.
Qed.

(** C9.  [build_context] always returns, in the very state it was called
    in: no attribute of the instance changes, nothing is printed and no
    request is sent.  Its result is a function of [summary], [recent_turns]
    and the new message alone: whatever else differs between two states,
    and whatever the service is, the results agree. *)
Theorem build_context_is_pure (st : State) (new_message : string) :
  snd (build_context new_message st) = st
  /\ requests (world (snd (build_context new_message st)))
     = requests (world st)
  /\ (exists context, fst (build_context new_message st) = inr context)
  /\ (forall st2,
         summary (self st2) = summary (self st) ->
         recent_turns (self st2) = recent_turns (self st) ->
         fst (build_context new_message st2)
         = fst (build_context new_message st)).
Proof.
  rewrite build_context_unfold. cbn [fst snd].
  repeat split.
  - eexists. reflexivity.
  - intros st2 Hs Hr. rewrite build_context_unfold. cbn [fst].
    unfold summary_exchange. now rewrite Hs, Hr.
Qed.

(** C4.  When the completion call of [chat] raises, or answers without a
    text, [chat] raises and no attribute of the instance has changed:
    [add_turn] was not reached.  The one thing that happened is that the
    request was sent. *)
Theorem chat_failure_mutates_nothing
        (st : State) (user_message : string) (context : list message) :
  fst (build_context user_message st) = inr context ->
  let req := {| model := MODEL;
                system_instruction := system_prompt (self st);
                req_contents := Messages context |} in
  (forall e,
      generate_content (requests (world st)) req = Raises e ->
      chat user_message st = (inl e, sent req st)
      /\ self (sent req st) = self st)
  /\ (forall r,
         generate_content (requests (world st)) req = Returns r ->
         response_text r = None ->
         chat user_message st = (inl AttributeError, sent req st)
         /\ self (sent req st) = self st).
Proof.
  rewrite build_context_unfold. cbn [fst]. intros H. injection H as <-.
  cbn zeta. fold (chat_request (self st) user_message).
  split.
  - intros e Hcall. rewrite chat_unfold. cbn zeta. rewrite Hcall.
    split; reflexivity.
  - intros r Hcall Htext. rewrite chat_unfold. cbn zeta.
    rewrite Hcall, Htext. split; reflexivity.
Qed.

End ContextAssembly.

(** Witness and counterexample states.  A service that answers the first
    summarisation with white space only leaves the session with an empty
    summary. *)
Lemma build_context_composition_witness :
  let st := start (with_summary (Some "X")
                     (extended [T "1"; T "2"] (__init__ "sys" 3 6))) in
  exists context,
    build_context "new" st = (inr context, st)
    /\ context
       = [msg "user" "[Conversation summary so far: X]";
          msg "model" ACKNOWLEDGMENT;
          msg "user" "q1"; msg "model" "a1";
          msg "user" "q2"; msg "model" "a2";
          msg "user" "new"]
    /\ length context = 7%nat.
Proof.
  intros st.
  destruct (build_context_composition st [T "1"; T "2"] "new" eq_refl)
    as (context & Hrun & Hsome & _ & _ & Hlen).
  exists context. split; [exact Hrun|]. split.
  - apply (Hsome "X"); [reflexivity | discriminate].
  - apply (Hlen "X"); [reflexivity | discriminate | reflexivity].
Defined.

(** Counterexample to C3 as stated.  After a first compression whose
    answer was blank, [summary] is set, to the empty text, and
    [build_context] emits no summary exchange. *)
Lemma build_context_skips_empty_summary :
  let client := Double.scripted [Double.says "   "] in
  let st := snd (add_turns [T "1"; T "2"; T "3"]
                   (start (__init__ "sys" 1 2))) in
  summary (self st) = Some EmptyString
  /\ recent_turns (self st) = flatten_turns [T "3"]
  /\ fst (build_context "new" st)
     = inr [msg "user" "q3"; msg "model" "a3"; msg "user" "new"]
  /\ fst (build_context "new" st)
     <> inr (spec_context (summary (self st)) [T "3"] "new").
Proof.
  intros client st. repeat split. vm_compute. discriminate.
Qed.

Lemma build_context_is_pure_witness :
  let st1 := start (extended [T "1"] (__init__ "sys" 3 6)) in
  let st2 := sent (summarize_request "earlier")
               (printed "line" (start (extended [T "1"] (__init__ "you" 1 2)))) in
  fst (build_context "new" st2) = fst (build_context "new" st1).
Proof.
  intros st1 st2.
  destruct (build_context_is_pure st1 "new") as (_ & _ & _ & Hsame).
  apply Hsame; reflexivity.
Defined.

Lemma chat_failure_mutates_nothing_witness :
  let client := Double.failing (ServiceError "429") in
  let st := start (extended [T "1"] (__init__ "sys" 3 6)) in
  exists st',
    chat "q2" st = (inl (ServiceError "429"), st')
    /\ self st' = self st
    /\ turn_count (self st') = 1.
Proof.
  intros client st.
  destruct (chat_failure_mutates_nothing (client := client) st "q2"
              [msg "user" "q1"; msg "model" "a1"; msg "user" "q2"] eq_refl)
    as (Hraise & _).
  destruct (Hraise (ServiceError "429") eq_refl) as (Hrun & Hself).
  eexists. split; [exact Hrun|]. split; [exact Hself | reflexivity].
Defined.

(** ** The transcript sent for summarisation *)

Lemma append_assoc (a b c : string) : (a +++ b) +++ c = a +++ (b +++ c).
Proof. induction a as [|ch a IH]; simpl; [reflexivity | now rewrite IH]. Qed.

(** The loop of [_compress] over flattened turns writes their transcript
    after what was accumulated so far, and does not raise. *)
Lemma transcript_loop_flatten (ts : list Turn) (acc : string) :
  transcript_loop (flatten_turns ts) acc
  = inr (acc +++ transcript_of_turns ts).
Proof.
  revert acc. induction ts as [|t ts IH]; intros acc.
  - simpl. f_equal. induction acc as [|ch acc IHacc]; simpl;
      [reflexivity | now rewrite <- IHacc].
  - change (flatten_turns (t :: ts))
      with (msg "user" (user_message t)
            :: msg "model" (assistant_message t) :: flatten_turns ts).
    cbn [transcript_loop msg parts role text String.eqb Ascii.eqb Bool.eqb andb].
    rewrite IH. f_equal.
    cbn [transcript_of_turns]. unfold transcript_line.
    rewrite !append_assoc. reflexivity.
Qed.

Section Transcript.

Context {client : Client}.



End Transcript.



(** ** Recording turns *)

Section Recording.

Context {client : Client}.

(** What [add_turn] has done to the record when it returns or raises:
    [_compress], whatever its outcome, touches neither [full_history] nor
    [turn_count]. *)
Lemma compress_frame (st : State) :
  full_history (self (snd (_compress st))) = full_history (self st)
  /\ turn_count (self (snd (_compress st))) = turn_count (self st).
Proof.
  rewrite compress_unfold. cbn zeta.
  destruct (transcript_loop _ _) as [e|conversation_text];
    [split; reflexivity|].
  destruct (generate_content _ _) as [r|e]; [|split; reflexivity].
  destruct (response_text r); split; reflexivity.
Qed.

Lemma add_turn_frame (u m : string) (st : State) :
  full_history (self (snd (add_turn u m st)))
  = full_history (self st) ++ [msg "user" u; msg "model" m]
  /\ turn_count (self (snd (add_turn u m st))) = turn_count (self st) + 1.
Proof.
  rewrite add_turn_unfold.
  destruct (over_threshold _).
  - destruct (compress_frame (on_self (recorded u m) st)) as [Hh Hc].
    rewrite Hh, Hc. cbn [on_self self recorded full_history turn_count].
    rewrite <- app_assoc. split; reflexivity.
  - cbn [snd on_self self recorded full_history turn_count].
    rewrite <- app_assoc. split; reflexivity.
Qed.

(** Below the threshold [add_turns] is a plain extension of the record. *)
Lemma add_turns_below_threshold (ts : list Turn) (st : State) :
  Z.of_nat (turns_in (recent_turns (self st)) + length ts)
    <= summarize_threshold (self st) ->
  add_turns ts st = (inr tt, on_self (extended ts) st).
Proof.
  revert st. induction ts as [|t ts IH]; intros st Hle.
  - cbn [add_turns ret]. f_equal. destruct st as [o w]. destruct o.
    unfold on_self, extended. cbn. rewrite !app_nil_r, Z.add_0_r.
    reflexivity.
  - cbn [add_turns]. unfold bind. rewrite add_turn_unfold.
    assert (Hno : over_threshold
                    (recorded (user_message t) (assistant_message t) (self st))
                  = false).
    { unfold over_threshold. cbn [recorded recent_turns summarize_threshold].
      fold (turns_in ((recent_turns (self st)
                       ++ [msg "user" (user_message t)])
                      ++ [msg "model" (assistant_message t)])).
      rewrite turns_in_snoc. cbn [length] in Hle.
      destruct (Z.gtb_spec (Z.of_nat (S (turns_in (recent_turns (self st)))))
                           (summarize_threshold (self st))); [lia|reflexivity]. }
    rewrite Hno. rewrite IH.
    + f_equal. unfold on_self, extended.
      cbn [self world recorded system_prompt max_recent_turns
           summarize_threshold full_history summary recent_turns turn_count].
      change (flatten_turns (t :: ts))
        with ([msg "user" (user_message t);
               msg "model" (assistant_message t)] ++ flatten_turns ts).
      rewrite <- !app_assoc. cbn [app length].
      replace (turn_count (self st) + 1 + Z.of_nat (length ts))
        with (turn_count (self st) + Z.of_nat (S (length ts))) by lia.
      reflexivity.
    + cbn [on_self self recorded recent_turns summarize_threshold].
      rewrite turns_in_snoc. cbn [length] in Hle. lia.
Qed.

(** C6.  On a new instance, a sequence of [add_turn] calls no longer than
    [summarize_threshold] returns with [recent_turns] (and [full_history])
    holding exactly the turns added, in order, [summary] still [None] and
    [turn_count] the number of calls; nothing was printed or sent. *)
Theorem add_turns_append_only
        (sp : string) (window threshold : Z) (w : World) (ts : list Turn) :
  Z.of_nat (length ts) <= threshold ->
  add_turns ts {| self := __init__ sp window threshold; world := w |}
  = (inr tt,
     {| self := {| system_prompt := sp;
                   max_recent_turns := window;
                   summarize_threshold := threshold;
                   full_history := flatten_turns ts;
                   summary := None;
                   recent_turns := flatten_turns ts;
                   turn_count := Z.of_nat (length ts) |};
        world := w |}).
Proof.
  intros Hle. rewrite add_turns_below_threshold.
  - reflexivity.
  - cbn [self __init__ recent_turns summarize_threshold].
    unfold turns_in. cbn [length Nat.div]. exact Hle.
Qed.

End Recording.

Lemma add_turns_append_only_witness :
  let client := Double.failing (ServiceError "unreachable") in
  snd (add_turns [T "1"; T "2"; T "3"; T "4"]
         (start (__init__ "sys" 2 4)))
  = start {| system_prompt := "sys";
             max_recent_turns := 2;
             summarize_threshold := 4;
             full_history := flatten_turns [T "1"; T "2"; T "3"; T "4"];
             summary := None;
             recent_turns := flatten_turns [T "1"; T "2"; T "3"; T "4"];
             turn_count := 4 |}.
Proof.
  intros client. unfold start.
  rewrite (add_turns_append_only (client := client) "sys" 2 4 fresh_world
             [T "1"; T "2"; T "3"; T "4"]).
  - reflexivity.
  - vm_compute. discriminate.
Defined.

(** ** Construction and input validation *)

(** C7 (amended).  Construction never raises: whatever the window and the
    threshold, it returns an instance holding them as given, with empty
    records, no summary and a turn count of zero. *)
Theorem construct_always_returns (sp : string) (window threshold : Z) :
  construct sp window threshold
  = inr {| system_prompt := sp;
           max_recent_turns := window;
           summarize_threshold := threshold;
           full_history := [];
           summary := None;
           recent_turns := [];
           turn_count := 0 |}.
Proof. reflexivity. Qed.

(** Counterexample to C7 as stated.  Window and threshold both 3, a window
    of 0 and a negative threshold are all accepted, and the instance built
    from the first records a turn like any other. *)
Lemma construct_accepts_invalid_configuration :
  (3 <= 3 /\ construct "sys" 3 3 = inr (__init__ "sys" 3 3))
  /\ (0 <= 0 /\ construct "sys" 0 6 = inr (__init__ "sys" 0 6))
  /\ (-1 <= 0 /\ construct "sys" 3 (-1) = inr (__init__ "sys" 3 (-1)))
  /\ (forall e, construct "sys" 3 3 <> inl e)
  /\ @add_turn (Double.constant "S") "q1" "a1" (start (__init__ "sys" 3 3))
     = (inr tt, start (extended [T "1"] (__init__ "sys" 3 3))).
Proof.
  repeat split; try lia; try reflexivity. intros e. discriminate.
Qed.

Section EmptyInput.

Context {client : Client}.

(** C8 (amended).  An empty [new_message] is handled like any other.
    [build_context] returns the usual context, ending in a user message
    with an empty text, in an unchanged state.  [chat] sends that context
    and, when the service answers with a text, calls [add_turn] with the
    empty message: [turn_count] grows by one and [full_history] by the two
    messages of the turn. *)
Theorem empty_message_is_accepted (st : State) :
  (exists before,
      build_context EmptyString st
      = (inr (before ++ [msg "user" EmptyString]), st))
  /\ (forall context r t,
         fst (build_context EmptyString st) = inr context ->
         generate_content (requests (world st))
           {| model := MODEL;
              system_instruction := system_prompt (self st);
              req_contents := Messages context |} = Returns r ->
         response_text r = Some t ->
         turn_count (self (snd (chat EmptyString st)))
         = turn_count (self st) + 1
         /\ full_history (self (snd (chat EmptyString st)))
            = full_history (self st)
              ++ [msg "user" EmptyString; msg "model" (Py.strip t)]).
Proof.
  split.
  - exists (summary_exchange (self st) ++ recent_turns (self st)).
    rewrite build_context_unfold, <- app_assoc. reflexivity.
  - intros context r t. rewrite build_context_unfold. cbn [fst].
    intros H. injection H as <-.
    fold (chat_request (self st) EmptyString). intros Hcall Htext.
    rewrite chat_unfold. cbn zeta. rewrite Hcall, Htext.
    destruct (add_turn_frame EmptyString (Py.strip t)
                (sent (chat_request (self st) EmptyString) st)) as [Hh Hc].
    destruct (add_turn _ _ _) as [[e|u] st']; cbn [snd] in *;
      split; assumption.
Qed.

End EmptyInput.

Lemma empty_message_is_accepted_witness :
  let client := Double.constant " hi " in
  let st := start (__init__ "sys" 3 6) in
  turn_count (self (snd (chat EmptyString st))) = 0 + 1
  /\ full_history (self (snd (chat EmptyString st)))
     = [] ++ [msg "user" EmptyString; msg "model" "hi"].
Proof.
  intros client st.
  destruct (empty_message_is_accepted (client := client) st) as (_ & Hchat).
  apply (Hchat [msg "user" EmptyString]
               {| response_text := Some " hi "; usage_metadata := tt |}
               " hi "); reflexivity.
Defined.

(** Counterexample to C8 as stated.  On a new instance [chat] with the
    empty message returns the reply, and the turn count is 1 afterwards;
    [build_context] returns a context as well. *)
Lemma chat_accepts_empty_message :
  let client := Double.constant " hi " in
  let st := start (__init__ "sys" 3 6) in
  fst (chat EmptyString st) = inr ("hi", tt)
  /\ turn_count (self st) = 0
  /\ turn_count (self (snd (chat EmptyString st))) = 1
  /\ build_context EmptyString st = (inr [msg "user" EmptyString], st).
Proof.
  intros client st. repeat split.
Qed.

(** ** Well-formed sessions *)

Section WellFormed.

Context {client : Client}.

Lemma compress_keeps_turns (st : State) (ts : list Turn) :
  recent_turns (self st) = flatten_turns ts ->
  exists ts', recent_turns (self (snd (_compress st))) = flatten_turns ts'.
Proof.
  intros Hts. rewrite compress_unfold. cbn zeta.
  destruct (transcript_loop _ _) as [e|conversation_text];
    [exists ts; exact Hts|].
  destruct (generate_content _ _) as [r|e]; [|exists ts; exact Hts].
  destruct (response_text r) as [t|]; [|exists ts; exact Hts].
  exists (Py.slice_from ts (- max_recent_turns (self st))).
  cbn [snd printed sent on_self self compressed with_recent_turns
       recent_turns].
  unfold to_keep, keep_count. rewrite Hts. apply slice_from_flatten.
Qed.

Lemma add_turn_keeps_turns (u m : string) (st : State) (ts : list Turn) :
  recent_turns (self st) = flatten_turns ts ->
  exists ts', recent_turns (self (snd (add_turn u m st))) = flatten_turns ts'.
Proof.
  intros Hts.
  assert (Hrec : recent_turns (self (on_self (recorded u m) st))
                 = flatten_turns
                     (ts ++ [ {| user_message := u;
                                 assistant_message := m |} ])).
  { cbn [on_self self recorded recent_turns].
    rewrite Hts, flatten_turns_app, <- app_assoc. reflexivity. }
  rewrite add_turn_unfold. destruct (over_threshold _).
  - eapply compress_keeps_turns. exact Hrec.
  - eexists. exact Hrec.
Qed.

(** In every state of a session [recent_turns] is a sequence of whole
    turns, each a user message followed by a model message. *)
Lemma reachable_recent_turns (st : State) :
  reachable st -> exists ts, recent_turns (self st) = flatten_turns ts.
Proof.
  induction 1 as [sp window threshold w | c st Hreach [ts Hts]].
  - exists []. reflexivity.
  - destruct c as [u m| |new_message|u]; cbn [exec].
    + eapply add_turn_keeps_turns. exact Hts.
    + eapply compress_keeps_turns. exact Hts.
    + rewrite build_context_unfold. exists ts. exact Hts.
    + rewrite chat_unfold. cbn zeta.
      destruct (generate_content _ _) as [r|e]; [|exists ts; exact Hts].
      destruct (response_text r) as [t|]; [|exists ts; exact Hts].
      destruct (add_turn_keeps_turns u (Py.strip t)
                  (sent (chat_request (self st) u) st) ts Hts) as [ts' Hts'].
      exists ts'. destruct (add_turn _ _ _) as [[e|v] st']; exact Hts'.
Qed.

(** So in a session the transcript is always rendered, and [_compress]
    returns whenever the service answers with a text. *)
Lemma reachable_compress_returns (st : State) :
  reachable st ->
  exists conversation_text,
    transcript_loop (to_summarize (self st)) (summary_prefix (self st))
    = inr conversation_text
    /\ forall r t,
         generate_content (requests (world st))
           (summarize_request conversation_text) = Returns r ->
         response_text r = Some t ->
         fst (_compress st) = inr tt.
Proof.
  intros Hreach. destruct (reachable_recent_turns st Hreach) as [ts Hts].
  eexists. split.
  - unfold to_summarize, keep_count. rewrite Hts, slice_to_flatten.
    apply transcript_loop_flatten.
  - intros r t Hcall Htext.
    rewrite compress_unfold. cbn zeta.
    unfold to_summarize, keep_count. rewrite Hts, slice_to_flatten.
    rewrite transcript_loop_flatten, Hcall, Htext. reflexivity.
Qed.

End WellFormed.

(** ** The complete record *)

Section FullHistory.

Context {client : Client}.

(** What a call adds to [full_history], and to [turn_count]. *)
Lemma exec_frame (c : call) (st : State) :
  exists turns : list Turn,
    (length turns <= 1)%nat
    /\ full_history (self (exec c st))
       = full_history (self st) ++ flatten_turns turns
    /\ turn_count (self (exec c st))
       = turn_count (self st) + Z.of_nat (length turns).
Proof.
  destruct c as [u m| |new_message|u]; cbn [exec].
  - exists [ {| user_message := u; assistant_message := m |} ].
    destruct (add_turn_frame u m st) as [Hh Hc].
    rewrite Hh, Hc. repeat split; cbn [length]; lia.
  - exists []. destruct (compress_frame st) as [Hh Hc].
    rewrite Hh, Hc, app_nil_r, Z.add_0_r. repeat split; cbn [length]; lia.
  - exists []. rewrite build_context_unfold. cbn [snd length flatten_turns flat_map].
    rewrite app_nil_r, Z.add_0_r. repeat split; cbn [length]; lia.
  - rewrite chat_unfold. cbn zeta.
    destruct (generate_content _ _) as [r|e].
    + destruct (response_text r) as [t|].
      * exists [ {| user_message := u; assistant_message := Py.strip t |} ].
        destruct (add_turn_frame u (Py.strip t)
                    (sent (chat_request (self st) u) st)) as [Hh Hc].
        destruct (add_turn _ _ _) as [[e|v] st']; cbn [snd] in *;
          rewrite Hh, Hc; repeat split; cbn [length]; lia.
      * exists []. cbn [snd sent self length flatten_turns flat_map].
        rewrite app_nil_r, Z.add_0_r. repeat split; cbn [length]; lia.
    + exists []. cbn [snd sent self length flatten_turns flat_map].
      rewrite app_nil_r, Z.add_0_r. repeat split; cbn [length]; lia.
Qed.

(** C10.  In every state of a session [full_history] holds exactly twice
    [turn_count] messages.  No call removes or rewrites anything in it:
    the old record is a prefix of the new one.  [add_turn] appends the two
    messages of its turn, also when the compression it triggers raises,
    and [_compress] leaves it alone, so the record grows by two messages
    per turn for as long as the session lasts. *)
Theorem full_history_grows_forever (st : State) :
  reachable st ->
  Z.of_nat (length (full_history (self st))) = 2 * turn_count (self st)
  /\ (forall c, exists added,
         full_history (self (exec c st)) = full_history (self st) ++ added)
  /\ (forall u m,
         full_history (self (exec (CallAddTurn u m) st))
         = full_history (self st) ++ [msg "user" u; msg "model" m]
         /\ turn_count (self (exec (CallAddTurn u m) st))
            = turn_count (self st) + 1)
  /\ full_history (self (exec CallCompress st)) = full_history (self st).
Proof.
  intros Hreach. split; [|split; [|split]].
  - induction Hreach as [sp window threshold w | c st Hreach IH].
    + reflexivity.
    + destruct (exec_frame c st) as (turns & _ & Hh & Hc).
      rewrite Hh, Hc, length_app, flatten_turns_length. lia.
  - intros c. destruct (exec_frame c st) as (turns & _ & Hh & _).
    exists (flatten_turns turns). exact Hh.
  - intros u m. cbn [exec]. apply add_turn_frame.
  - cbn [exec]. apply compress_frame.
Qed.

End FullHistory.

(** A session of five turns with window 2 and threshold 4: the fifth turn
    is compressed away from [recent_turns], and [full_history] still holds
    all ten messages. *)
Lemma full_history_grows_forever_witness :
  let client := Double.constant "S" in
  let st := exec (CallAddTurn "q5" "a5")
              (exec (CallAddTurn "q4" "a4")
                 (exec (CallAddTurn "q3" "a3")
                    (exec (CallAddTurn "q2" "a2")
                       (exec (CallAddTurn "q1" "a1")
                          (start (__init__ "sys" 2 4)))))) in
  Z.of_nat (length (full_history (self st))) = 2 * turn_count (self st)
  /\ length (full_history (self st)) = 10%nat
  /\ length (recent_turns (self st)) = 4%nat.
Proof.
  intros client st.
  assert (Hreach : reachable (client := client) st).
  { unfold st. do 5 apply reach_call.
    apply (reach_init (client := client) "sys" 2 4 fresh_world). }
  destruct (full_history_grows_forever (client := client) st Hreach)
    as (Hinv & _).
  split; [exact Hinv|]. split; reflexivity.
Defined.

(** * Beyond the manager: truncation, sliding window, summarisation *)

Example range_of_the_window_loop :
  Py.range (8 - 2) (-1) (-2) = [6; 4; 2; 0]
  /\ Py.range (7 - 2) (-1) (-2) = [5; 3; 1]
  /\ Py.range (1 - 2) (-1) (-2) = []
  /\ Py.range (0 - 2) (-1) (-2) = [].
Proof. repeat split. Qed.

(** ** [truncate_history] *)

Lemma lastn_length {A} (n : nat) (l : list A) :
  length (lastn n l) = Nat.min n (length l).
Proof. unfold lastn. rewrite length_skipn. lia. Qed.

Lemma lastn_suffix {A} (n : nat) (l : list A) :
  firstn (length l - n) l ++ lastn n l = l.
Proof. apply firstn_skipn. Qed.

Lemma lastn_all {A} (n : nat) (l : list A) :
  (length l <= n)%nat -> lastn n l = l.
Proof.
  intros Hle. unfold lastn.
  replace (length l - n)%nat with 0%nat by lia. reflexivity.
Qed.

Lemma lastn_lastn {A} (a b : nat) (l : list A) :
  lastn a (lastn b l) = lastn (Nat.min a b) l.
Proof.
  unfold lastn. rewrite length_skipn, skipn_skipn. f_equal. lia.
Qed.

Lemma lastn_flatten (n : nat) (ts : list Turn) :
  lastn (2 * n) (flatten_turns ts) = flatten_turns (lastn n ts).
Proof.
  unfold lastn. rewrite flatten_turns_length.
  replace (2 * length ts - 2 * n)%nat with (2 * (length ts - n))%nat by lia.
  apply flatten_turns_skipn.
Qed.


(** The two branches of [truncate_history]. *)
Lemma truncate_history_unfold {A} (history : list A) (max_turns : Z)
      (st : State) :
  truncate_history history max_turns st
  = if Z.of_nat (length history) >? max_turns * 2
    then (inr (Py.slice_from history (- (max_turns * 2))),
          printed ("  Truncating: dropping "
                   +++ Py.str_of_nat
                         (Z.to_nat ((Z.of_nat (length history)
                                     - max_turns * 2) / 2))
                   +++ " oldest turn pairs") st)
    else (inr history, st).
Proof.
  unfold truncate_history. destruct (_ >? _); reflexivity.
Qed.

(** The value of [truncate_history] for a positive [max_turns]. *)
Lemma truncate_history_value {A} (history : list A) (max_turns : Z)
      (st : State) :
  0 < max_turns ->
  fst (truncate_history history max_turns st)
  = inr (lastn (Z.to_nat (max_turns * 2)) history).
Proof.
  intros Hpos. rewrite truncate_history_unfold.
  destruct (Z.gtb_spec (Z.of_nat (length history)) (max_turns * 2))
    as [Hgt|Hle]; cbn [fst]; f_equal.
  - unfold Py.slice_from, lastn. rewrite slice_bound_tail by lia.
    reflexivity.
  - symmetry. apply lastn_all. lia.
Qed.

(** X1.  For a positive [max_turns], [truncate_history] never raises and
    returns the newest [2 * max_turns] messages of [history], or all of it
    when there are no more than that: what it drops is a prefix.  It
    prints one line when it drops something and nothing otherwise, and it
    touches neither the manager nor the service. *)
Theorem truncate_history_keeps_newest {A}
        (history : list A) (max_turns : Z) (st : State) :
  0 < max_turns ->
  exists kept,
    fst (truncate_history history max_turns st) = inr kept
    /\ (exists dropped, history = dropped ++ kept)
    /\ length kept = Nat.min (Z.to_nat (max_turns * 2)) (length history)
    /\ self (snd (truncate_history history max_turns st)) = self st
    /\ requests (world (snd (truncate_history history max_turns st)))
       = requests (world st)
    /\ (Z.of_nat (length history) <= max_turns * 2 ->
        kept = history /\ snd (truncate_history history max_turns st) = st)
    /\ (max_turns * 2 < Z.of_nat (length history) ->
        exists line,
          stdout (world (snd (truncate_history history max_turns st)))
          = stdout (world st) ++ [line]).
Proof.
  intros Hpos. exists (lastn (Z.to_nat (max_turns * 2)) history).
  split; [apply truncate_history_value; exact Hpos|].
  split; [eexists; symmetry; apply lastn_suffix|].
  split; [apply lastn_length|].
  rewrite truncate_history_unfold.
  destruct (Z.gtb_spec (Z.of_nat (length history)) (max_turns * 2))
    as [Hgt|Hle]; cbn [snd printed self world requests stdout].
  - repeat split; try lia. intros _. eexists. reflexivity.
  - repeat split; try lia. apply lastn_all. lia.
Qed.

Lemma truncate_history_keeps_newest_witness :
  let st := start (__init__ "sys" 3 6) in
  exists kept,
    fst (truncate_history [1; 2; 3; 4; 5; 6; 7; 8] 3 st) = inr kept
    /\ kept = [3; 4; 5; 6; 7; 8]
    /\ length kept = 6%nat.
Proof.
  intros st.
  destruct (truncate_history_keeps_newest [1; 2; 3; 4; 5; 6; 7; 8] 3 st)
    as (kept & Hrun & _ & Hlen & _); [reflexivity|].
  exists kept. split; [exact Hrun|]. split; [|exact Hlen].
  vm_compute in Hrun. injection Hrun as <-. reflexivity.
Defined.

(** X2.  On a history made of whole turns, [truncate_history] with a positive
    [max_turns] returns the last [max_turns] turns, each with both of its
    messages: no turn is cut in two. *)
Theorem truncate_history_keeps_whole_turns
        (ts : list Turn) (max_turns : Z) (st : State) :
  0 < max_turns ->
  fst (truncate_history (flatten_turns ts) max_turns st)
  = inr (flatten_turns (lastn (Z.to_nat max_turns) ts)).
Proof.
  intros Hpos. rewrite truncate_history_value by exact Hpos.
  replace (Z.to_nat (max_turns * 2)) with (2 * Z.to_nat max_turns)%nat by lia.
  now rewrite lastn_flatten.
Qed.

Lemma truncate_history_keeps_whole_turns_witness :
  fst (truncate_history (flatten_turns [T "1"; T "2"; T "3"; T "4"]) 3
         (start (__init__ "sys" 3 6)))
  = inr (flatten_turns [T "2"; T "3"; T "4"]).
Proof.
  apply (truncate_history_keeps_whole_turns
           [T "1"; T "2"; T "3"; T "4"] 3 (start (__init__ "sys" 3 6))).
  reflexivity.
Defined.



(** X4.  Truncating twice, to [n] turns and then to [m], both positive, gives
    what truncating once to the smaller of the two gives; in particular
    truncating again to the same size changes nothing. *)
Theorem truncate_history_twice {A}
        (history : list A) (n m : Z) (st1 st2 : State) :
  0 < n -> 0 < m ->
  exists kept,
    fst (truncate_history history n st1) = inr kept
    /\ fst (truncate_history kept m st2)
       = fst (truncate_history history (Z.min n m) st2)
    /\ fst (truncate_history kept n st2) = inr kept.
Proof.
  intros Hn Hm. eexists. split; [apply truncate_history_value; exact Hn|].
  rewrite !truncate_history_value by lia.
  rewrite !lastn_lastn. split; f_equal; f_equal; lia.
Qed.

Lemma truncate_history_twice_witness :
  let st := start (__init__ "sys" 3 6) in
  exists kept,
    fst (truncate_history [1; 2; 3; 4; 5; 6; 7; 8] 3 st) = inr kept
    /\ fst (truncate_history kept 2 st)
       = fst (truncate_history [1; 2; 3; 4; 5; 6; 7; 8] (Z.min 3 2) st)
    /\ fst (truncate_history kept 3 st) = inr kept.
Proof.
  intros st.
  apply (truncate_history_twice [1; 2; 3; 4; 5; 6; 7; 8] 3 2 st st);
    reflexivity.
Defined.

(** ** [sliding_window_by_tokens] *)

Lemma index_in_range {A} (l : list A) (k : nat) :
  (k < length l)%nat -> Py.index l (Z.of_nat k) = nth_error l k.
Proof.
  intros Hk. unfold Py.index.
  destruct (Z.ltb_spec (Z.of_nat k) 0) as [Hneg|_]; [lia|].
  destruct (Z.ltb_spec (Z.of_nat k) 0) as [Hneg|_]; [lia|].
  destruct (Z.geb_spec (Z.of_nat k) (Z.of_nat (length l))) as [Hge|_]; [lia|].
  cbn [orb]. now rewrite Nat2Z.id.
Qed.

Lemma nth_error_flatten (ts : list Turn) (k : nat) (t : Turn) :
  nth_error ts k = Some t ->
  nth_error (flatten_turns ts) (2 * k) = Some (msg "user" (user_message t))
  /\ nth_error (flatten_turns ts) (2 * k + 1)
     = Some (msg "model" (assistant_message t)).
Proof.
  revert ts. induction k as [|k IH]; intros [|t0 ts] Hk; try discriminate.
  - injection Hk as ->. split; reflexivity.
  - replace (2 * S k)%nat with (S (S (2 * k))) by lia.
    change (flatten_turns (t0 :: ts))
      with (msg "user" (user_message t0)
            :: msg "model" (assistant_message t0) :: flatten_turns ts).
    cbn [nth_error Nat.add]. apply IH. exact Hk.
Qed.

Lemma index_flatten (ts : list Turn) (k : nat) (t : Turn) :
  nth_error ts k = Some t ->
  Py.index (flatten_turns ts) (Z.of_nat (2 * k))
  = Some (msg "user" (user_message t))
  /\ Py.index (flatten_turns ts) (Z.of_nat (2 * k) + 1)
     = Some (msg "model" (assistant_message t)).
Proof.
  intros Hk.
  assert (Hlt : (k < length ts)%nat)
    by (apply nth_error_Some; rewrite Hk; discriminate).
  destruct (nth_error_flatten ts k t Hk) as [Hu Hm].
  replace (Z.of_nat (2 * k) + 1) with (Z.of_nat (2 * k + 1)) by lia.
  rewrite !index_in_range by (rewrite flatten_turns_length; lia).
  split; assumption.
Qed.

Lemma firstn_snoc_nth {A} (l : list A) (k : nat) (a : A) :
  nth_error l k = Some a -> firstn (S k) l = firstn k l ++ [a].
Proof.
  revert l. induction k as [|k IH]; intros [|b l] Hk; try discriminate.
  - injection Hk as ->. reflexivity.
  - cbn [nth_error] in Hk. rewrite firstn_cons, (IH l Hk). reflexivity.
Qed.

(** The indices of the loop on an even-length history. *)
Lemma range_evens_down (n : nat) :
  Py.range (Z.of_nat (2 * n) - 2) (-1) (-2) = evens_down n.
Proof.
  unfold Py.range. cbn [Z.gtb Z.ltb Z.compare Z.opp].
  replace (Z.to_nat ((Z.of_nat (2 * n) - 2 - -1 - -2 - 1) / 2)) with n
    by (zify; Z.to_euclidean_division_equations; lia).
  assert (H : forall m (f : nat -> Z),
             (forall k, (k < m)%nat -> f k = Z.of_nat (2 * (m - 1 - k))) ->
             map f (seq 0 m) = evens_down m).
  { induction m as [|m IH]; intros f Hf; [reflexivity|].
    rewrite <- cons_seq, <- seq_shift, map_cons, map_map.
    cbn [evens_down]. f_equal.
    - rewrite Hf by lia. f_equal. lia.
    - apply IH. intros k Hk. rewrite Hf by lia. f_equal. lia. }
  apply H. intros k Hk. lia.
Qed.

(** On whole turns the loop over messages is the loop over turns. *)
Lemma window_loop_turns (ts : list Turn) (max_total_tokens : Z) (j : nat) :
  (j <= length ts)%nat ->
  forall kept running_tokens,
    window_loop (flatten_turns ts) max_total_tokens (evens_down j)
      (flatten_turns kept) running_tokens
    = inr (flatten_turns
             (fst (window_turns max_total_tokens (List.rev (firstn j ts))
                     kept running_tokens)),
           snd (window_turns max_total_tokens (List.rev (firstn j ts))
                  kept running_tokens)).
Proof.
  induction j as [|j IH]; intros Hj kept running_tokens; [reflexivity|].
  destruct (nth_error ts j) as [t|] eqn:Ht;
    [|apply nth_error_None in Ht; lia].
  destruct (index_flatten ts j t Ht) as [Hu Hm].
  cbn [evens_down window_loop]. rewrite Hu, Hm.
  cbn [msg parts text].
  rewrite (firstn_snoc_nth ts j t Ht), rev_app_distr.
  change (List.rev [t] ++ List.rev (firstn j ts))
    with (t :: List.rev (firstn j ts)).
  cbn [window_turns fst snd]. unfold turn_tokens.
  destruct (_ >? _); [reflexivity|].
  change ([msg "user" (user_message t); msg "model" (assistant_message t)]
          ++ flatten_turns kept) with (flatten_turns (t :: kept)).
  apply IH. lia.
Qed.

Lemma turns_tokens_app (a b : list Turn) :
  turns_tokens (a ++ b) = turns_tokens a + turns_tokens b.
Proof.
  induction a as [|t a IH]; [reflexivity|].
  change (turns_tokens ((t :: a) ++ b))
    with (turn_tokens t + turns_tokens (a ++ b)).
  change (turns_tokens (t :: a)) with (turn_tokens t + turns_tokens a).
  rewrite IH. lia.
Qed.

(** What the loop over turns computes: it keeps the first [k] turns it
    meets, stops there because the next one does not fit or because there
    is none, and its estimate is the start value plus their cost. *)
Lemma window_turns_spec (max_total_tokens : Z) (newest_first : list Turn) :
  forall kept running_tokens,
  exists k,
    (k <= length newest_first)%nat
    /\ window_turns max_total_tokens newest_first kept running_tokens
       = (List.rev (firstn k newest_first) ++ kept,
          running_tokens + turns_tokens (List.rev (firstn k newest_first)))
    /\ ((0 < k)%nat ->
        running_tokens + turns_tokens (List.rev (firstn k newest_first))
        <= max_total_tokens)
    /\ (forall t, nth_error newest_first k = Some t ->
          running_tokens + turns_tokens (List.rev (firstn k newest_first))
          + turn_tokens t > max_total_tokens).
Proof.
  induction newest_first as [|t older IH]; intros kept running_tokens.
  - exists 0%nat. split; [reflexivity|]. split.
    { cbn [window_turns firstn List.rev app]. f_equal.
      change (turns_tokens []) with 0. lia. }
    split; [lia|]. intros t H. discriminate H.
  - cbn [window_turns].
    destruct (Z.gtb_spec (running_tokens + turn_tokens t) max_total_tokens)
      as [Hgt|Hle].
    + exists 0%nat. split; [cbn [length]; lia|]. split.
      { cbn [firstn List.rev app]. f_equal.
        change (turns_tokens []) with 0. lia. }
      split; [lia|]. intros t0 H. cbn [nth_error] in H.
      injection H as <-. cbn [firstn List.rev].
      change (turns_tokens []) with 0. lia.
    + destruct (IH (t :: kept) (running_tokens + turn_tokens t))
        as (k & Hk & Hrun & Hfit & Hnext).
      exists (S k). cbn [firstn List.rev length nth_error].
      rewrite turns_tokens_app, <- app_assoc.
      change (turns_tokens [t]) with (turn_tokens t + 0).
      cbn [app].
      split; [lia|]. split; [rewrite Hrun; f_equal; lia|]. split.
      * intros _. destruct k as [|k].
        -- cbn [firstn List.rev]. change (turns_tokens []) with 0. lia.
        -- specialize (Hfit ltac:(lia)). lia.
      * intros t0 Ht0. specialize (Hnext t0 Ht0). lia.
Qed.

Lemma turn_tokens_nonneg (t : Turn) : 0 <= turn_tokens t.
Proof.
  unfold turn_tokens, Py.len.
  zify; Z.to_euclidean_division_equations; lia.
Qed.

Lemma turns_tokens_nonneg (ts : list Turn) : 0 <= turns_tokens ts.
Proof.
  induction ts as [|t ts IH]; [reflexivity|].
  change (turns_tokens (t :: ts)) with (turn_tokens t + turns_tokens ts).
  pose proof (turn_tokens_nonneg t). lia.
Qed.

(** [sliding_window_by_tokens] on whole turns, in one statement: the
    history splits into the turns left out and the turns kept; the estimate
    is the cost of the prompt plus the cost of the kept turns; if anything
    is kept the estimate is within the budget; and the newest turn left
    out, if there is one, would have broken the budget. *)
Lemma sliding_window_split (ts : list Turn) (sp : string) (budget : Z) :
  exists older newer,
    ts = older ++ newer
    /\ sliding_window_by_tokens (flatten_turns ts) sp budget
       = inr (flatten_turns newer, Py.len sp / 4 + turns_tokens newer)
    /\ (newer <> [] -> Py.len sp / 4 + turns_tokens newer <= budget)
    /\ (forall older' t,
          older = older' ++ [t] ->
          Py.len sp / 4 + turns_tokens newer + turn_tokens t > budget).
Proof.
  destruct (window_turns_spec budget (List.rev ts) [] (Py.len sp / 4))
    as (k & Hk & Hrun & Hfit & Hnext).
  rewrite length_rev in Hk.
  exists (firstn (length ts - k) ts), (skipn (length ts - k) ts).
  assert (Hnewer : List.rev (firstn k (List.rev ts))
                   = skipn (length ts - k) ts)
    by (rewrite firstn_rev; apply rev_involutive).
  rewrite Hnewer, app_nil_r in Hrun. rewrite Hnewer in Hfit, Hnext.
  split; [symmetry; apply firstn_skipn|]. split; [|split].
  - unfold sliding_window_by_tokens.
    rewrite flatten_turns_length, range_evens_down.
    change (@nil message) with (flatten_turns []).
    rewrite (window_loop_turns ts budget (length ts) (Nat.le_refl _)).
    rewrite firstn_all, Hrun. reflexivity.
  - intros Hne. apply Hfit. destruct k as [|k]; [|lia].
    exfalso. apply Hne. rewrite Nat.sub_0_r. apply skipn_all.
  - intros older' t Holder. apply Hnext.
    rewrite nth_error_rev.
    assert (Hlen : length (firstn (length ts - k) ts) = S (length older'))
      by (rewrite Holder, length_app; cbn [length]; lia).
    rewrite length_firstn in Hlen.
    destruct (Nat.ltb_spec k (length ts)) as [Hlt|Hge]; [|lia].
    replace (length ts - S k)%nat with (length older') by lia.
    rewrite <- (firstn_skipn (length ts - k) ts), Holder, <- app_assoc.
    rewrite nth_error_app2 by lia. rewrite Nat.sub_diag. reflexivity.
Qed.

(** X5.  On a history of whole turns [sliding_window_by_tokens] never raises.
    What it keeps is a run of the newest turns, whole and in their
    original order, and the estimate it returns is a quarter of the length
    of the system prompt plus a quarter of the length of every kept
    text, each rounded down. *)
Theorem sliding_window_keeps_newest_turns
        (ts : list Turn) (sp : string) (budget : Z) :
  exists k,
    (k <= length ts)%nat
    /\ sliding_window_by_tokens (flatten_turns ts) sp budget
       = inr (flatten_turns (lastn k ts),
              Py.len sp / 4 + turns_tokens (lastn k ts)).
Proof.
  destruct (sliding_window_split ts sp budget)
    as (older & newer & Hts & Hrun & _).
  exists (length newer). split.
  - rewrite Hts, length_app. lia.
  - replace (lastn (length newer) ts) with newer; [exact Hrun|].
    unfold lastn. rewrite Hts, length_app.
    replace (length older + length newer - length newer)%nat
      with (length older) by lia.
    now rewrite skipn_app, skipn_all, Nat.sub_diag.
Qed.

(** X6.  Whenever [sliding_window_by_tokens] keeps at least one turn, its
    estimate is within [max_total_tokens].  When the system prompt alone
    is over the budget it keeps nothing and returns the cost of the
    prompt, which is then over the budget. *)
Theorem sliding_window_within_budget
        (ts : list Turn) (sp : string) (budget : Z)
        (kept : list message) (total : Z) :
  sliding_window_by_tokens (flatten_turns ts) sp budget = inr (kept, total) ->
  (kept <> [] -> total <= budget)
  /\ (budget < Py.len sp / 4 -> kept = [] /\ total = Py.len sp / 4)
  /\ Py.len sp / 4 <= total.
Proof.
  destruct (sliding_window_split ts sp budget)
    as (older & newer & _ & Hrun & Hfit & _).
  rewrite Hrun. intros H. injection H as <- <-.
  pose proof (turns_tokens_nonneg newer) as Hnn.
  split; [|split].
  - intros Hne. apply Hfit. intros ->. apply Hne. reflexivity.
  - intros Hover. destruct newer as [|t newer].
    + split; [reflexivity|]. change (turns_tokens []) with 0. lia.
    + specialize (Hfit ltac:(discriminate)). lia.
  - lia.
Qed.

Lemma sliding_window_within_budget_witness :
  let ts := [ {| user_message := "12345678"; assistant_message := "1234" |};
              {| user_message := "1234"; assistant_message := "12345" |} ] in
  sliding_window_by_tokens (flatten_turns ts) "12345678" 4
  = inr (flatten_turns (lastn 1 ts), 4)
  /\ 4 <= 4.
Proof.
  intros ts. split; [reflexivity|].
  destruct (sliding_window_within_budget ts "12345678" 4
              (flatten_turns (lastn 1 ts)) 4 eq_refl) as (Hfit & _).
  apply Hfit. discriminate.
Defined.

(** X7.  [sliding_window_by_tokens] stops only when it must: if it leaves a
    turn out, then the newest turn it left out, added to the estimate
    it returns, would exceed [max_total_tokens]. *)
Theorem sliding_window_is_maximal
        (ts : list Turn) (sp : string) (budget : Z)
        (kept : list message) (total : Z) :
  sliding_window_by_tokens (flatten_turns ts) sp budget = inr (kept, total) ->
  (length kept < length (flatten_turns ts))%nat ->
  exists older t newer,
    ts = older ++ t :: newer
    /\ kept = flatten_turns newer
    /\ total + turn_tokens t > budget.
Proof.
  destruct (sliding_window_split ts sp budget)
    as (older & newer & Hts & Hrun & _ & Hnext).
  rewrite Hrun. intros H. injection H as <- <-.
  rewrite !flatten_turns_length. intros Hlt.
  destruct (exists_last (l := older)) as (older' & t & Holder).
  { intros ->. subst ts. change ([] ++ newer) with newer in Hlt. lia. }
  exists older', t, newer. split; [|split].
  - rewrite Hts, Holder, <- app_assoc. reflexivity.
  - reflexivity.
  - apply (Hnext older' t Holder).
Qed.

Lemma sliding_window_is_maximal_witness :
  let ts := [ {| user_message := "12345678"; assistant_message := "1234" |};
              {| user_message := "1234"; assistant_message := "12345" |} ] in
  exists older t newer,
    ts = older ++ t :: newer
    /\ flatten_turns (lastn 1 ts) = flatten_turns newer
    /\ 4 + turn_tokens t > 4.
Proof.
  intros ts.
  apply (sliding_window_is_maximal ts "12345678" 4
           (flatten_turns (lastn 1 ts)) 4 eq_refl).
  vm_compute. lia.
Defined.

(** X8.  When the system prompt and all turns together fit the budget,
    [sliding_window_by_tokens] returns the whole history. *)
Theorem sliding_window_keeps_all_that_fits
        (ts : list Turn) (sp : string) (budget : Z) :
  Py.len sp / 4 + turns_tokens ts <= budget ->
  sliding_window_by_tokens (flatten_turns ts) sp budget
  = inr (flatten_turns ts, Py.len sp / 4 + turns_tokens ts).
Proof.
  intros Hall.
  destruct (sliding_window_split ts sp budget)
    as (older & newer & Hts & Hrun & _ & Hnext).
  destruct older as [|t0 older0] eqn:Holder.
  - change ([] ++ newer) with newer in Hts. subst ts. exact Hrun.
  - exfalso.
    destruct (exists_last (l := t0 :: older0)) as (older' & t & Hsplit);
      [discriminate|].
    specialize (Hnext older' t Hsplit).
    rewrite Hts, Hsplit, !turns_tokens_app in Hall.
    change (turns_tokens [t]) with (turn_tokens t + 0) in Hall.
    pose proof (turns_tokens_nonneg older'). lia.
Qed.

Lemma sliding_window_keeps_all_that_fits_witness :
  let ts := [ {| user_message := "12345678"; assistant_message := "1234" |};
              {| user_message := "1234"; assistant_message := "12345" |} ] in
  sliding_window_by_tokens (flatten_turns ts) "12345678" 7
  = inr (flatten_turns ts, 7).
Proof.
  intros ts.
  apply (sliding_window_keeps_all_that_fits ts "12345678" 7).
  vm_compute. discriminate.
Defined.

Lemma index_cons_succ {A} (a : A) (l : list A) (i : Z) :
  0 <= i -> Py.index (a :: l) (i + 1) = Py.index l i.
Proof.
  intros Hi. unfold Py.index. cbn [length].
  destruct (Z.ltb_spec (i + 1) 0) as [Hneg|_]; [lia|].
  destruct (Z.ltb_spec i 0) as [Hneg|_]; [lia|].
  destruct (Z.ltb_spec (i + 1) 0) as [Hneg|_]; [lia|].
  destruct (Z.ltb_spec i 0) as [Hneg|_]; [lia|].
  destruct (Z.geb_spec (i + 1) (Z.of_nat (S (length l))));
    destruct (Z.geb_spec i (Z.of_nat (length l))); try lia;
    cbn [orb]; [reflexivity|].
  replace (Z.to_nat (i + 1)) with (S (Z.to_nat i)) by lia. reflexivity.
Qed.

Lemma window_loop_cons (m0 : message) (history : list message) (budget : Z)
      (indices : list Z) :
  Forall (fun i => 0 <= i) indices ->
  forall kept running_tokens,
    window_loop (m0 :: history) budget (map (fun i => i + 1) indices)
      kept running_tokens
    = window_loop history budget indices kept running_tokens.
Proof.
  induction 1 as [|i indices Hi _ IH]; intros kept running_tokens;
    [reflexivity|].
  cbn [map window_loop].
  rewrite (index_cons_succ m0 history i Hi).
  rewrite (index_cons_succ m0 history (i + 1)) by lia.
  destruct (Py.index history i) as [user_msg|]; [|reflexivity].
  destruct (Py.index history (i + 1)) as [model_msg|]; [|reflexivity].
  destruct (parts user_msg) as [|pu ?]; [reflexivity|].
  destruct (parts model_msg) as [|pm ?]; [reflexivity|].
  cbn zeta. destruct (_ >? _); [reflexivity|]. apply IH.
Qed.

Lemma evens_down_nonneg (n : nat) : Forall (fun i => 0 <= i) (evens_down n).
Proof.
  induction n as [|n IH]; constructor; [lia | exact IH].
Qed.

Lemma range_odds_down (n : nat) :
  Py.range (Z.of_nat (S (2 * n)) - 2) (-1) (-2)
  = map (fun i => i + 1) (evens_down n).
Proof.
  rewrite <- range_evens_down. unfold Py.range.
  cbn [Z.gtb Z.ltb Z.compare Z.opp].
  replace (Z.to_nat ((Z.of_nat (S (2 * n)) - 2 - -1 - -2 - 1) / 2)) with n
    by (zify; Z.to_euclidean_division_equations; lia).
  replace (Z.to_nat ((Z.of_nat (2 * n) - 2 - -1 - -2 - 1) / 2)) with n
    by (zify; Z.to_euclidean_division_equations; lia).
  rewrite map_map. apply map_ext. intros k. lia.
Qed.

(** X9.  Pairs are read from the newest end.  With an odd number of messages
    the oldest message belongs to no pair: it is never read and never
    kept, and the result is that of the history without it. *)
Theorem sliding_window_ignores_unpaired_oldest
        (m0 : message) (history : list message) (sp : string) (budget : Z)
        (n : nat) :
  length history = (2 * n)%nat ->
  sliding_window_by_tokens (m0 :: history) sp budget
  = sliding_window_by_tokens history sp budget.
Proof.
  intros Hlen. unfold sliding_window_by_tokens. cbn [length].
  rewrite Hlen, range_odds_down, range_evens_down.
  apply window_loop_cons, evens_down_nonneg.
Qed.

Lemma sliding_window_ignores_unpaired_oldest_witness :
  sliding_window_by_tokens
    ({| role := "model"; parts := [] |} :: flatten_turns [T "1"; T "2"])
    "sys" 500
  = inr (flatten_turns [T "1"; T "2"], 0).
Proof.
  rewrite (sliding_window_ignores_unpaired_oldest
             {| role := "model"; parts := [] |}
             (flatten_turns [T "1"; T "2"]) "sys" 500 2 eq_refl).
  reflexivity.
Defined.

(** ** [summarize_history] *)

Lemma lstrip_head (s : string) (c : ascii) (rest : string) :
  Py.lstrip s = String c rest -> Py.isspace c = false.
Proof.
  induction s as [|a s IH]; cbn [Py.lstrip]; [discriminate|].
  destruct (Py.isspace a) eqn:Ha; [exact IH|].
  intros H. injection H as <- _. exact Ha.
Qed.

Lemma rstrip_head (s : string) (c : ascii) (rest : string) :
  Py.rstrip s = String c rest -> exists rest', s = String c rest'.
Proof.
  destruct s as [|a s]; cbn [Py.rstrip]; [discriminate|].
  destruct (Py.rstrip s); [destruct (Py.isspace a); [discriminate|]|];
    intros H; injection H as <- _; eexists; reflexivity.
Qed.

Lemma rstrip_last (s : string) (c : ascii) :
  last_char (Py.rstrip s) = Some c -> Py.isspace c = false.
Proof.
  induction s as [|a s IH]; cbn [Py.rstrip]; [discriminate|].
  destruct (Py.rstrip s) as [|k kept].
  - destruct (Py.isspace a) eqn:Ha; [discriminate|].
    cbn [last_char]. intros H. injection H as <-. exact Ha.
  - cbn [last_char]. exact IH.
Qed.

Lemma lstrip_fixed (s : string) :
  (forall c rest, s = String c rest -> Py.isspace c = false) ->
  Py.lstrip s = s.
Proof.
  destruct s as [|a s]; [reflexivity|]. intros H.
  cbn [Py.lstrip]. now rewrite (H a s eq_refl).
Qed.

Lemma rstrip_fixed (s : string) :
  (forall c, last_char s = Some c -> Py.isspace c = false) ->
  Py.rstrip s = s.
Proof.
  induction s as [|a s IH]; [reflexivity|]. intros H.
  cbn [Py.rstrip]. destruct s as [|b s].
  - cbn [Py.rstrip]. now rewrite (H a eq_refl).
  - rewrite IH by (intros c Hc; apply H; exact Hc). reflexivity.
Qed.

Lemma strip_stripped (s : string) : stripped (Py.strip s).
Proof.
  unfold Py.strip. split.
  - intros c rest H. destruct (rstrip_head _ _ _ H) as [rest' H'].
    apply (lstrip_head s c rest' H').
  - apply rstrip_last.
Qed.

Lemma stripped_fixed (s : string) : stripped s -> Py.strip s = s.
Proof.
  intros [Hhead Hlast]. unfold Py.strip.
  rewrite (lstrip_fixed s Hhead). apply rstrip_fixed, Hlast.
Qed.

(** The loop raises nothing but [IndexError], and does raise it when some
    message has an empty list of parts. *)
Lemma transcript_loop_empty_parts (ms : list message) (acc : string) :
  (exists m, In m ms /\ parts m = []) ->
  transcript_loop ms acc = inl IndexError.
Proof.
  revert acc. induction ms as [|m0 ms IH]; intros acc (m & Hin & Hparts).
  - destruct Hin.
  - cbn [transcript_loop]. destruct (parts m0) as [|p ps] eqn:Hp0;
      [reflexivity|].
    apply IH. exists m. split; [|exact Hparts].
    destruct Hin as [->|Hin]; [congruence | exact Hin].
Qed.

Section SummarizeHistory.

Context {client : Client}.

(** X10.  [summarize_history] on whole turns sends exactly one request: the
    transcript of the turns, one line for the user and one for the
    assistant per turn, under its own instruction.  It returns the answer
    without the white space around it, raises what the service raises,
    raises [AttributeError] when the answer has no text, and touches
    neither the manager nor the output.  An empty history is sent all the
    same, as an empty text. *)
Theorem summarize_history_on_turns (ts : list Turn) (st : State) :
  let req := {| model := MODEL;
                system_instruction := SUMMARIZE_HISTORY_INSTRUCTION;
                req_contents := Text (transcript_of_turns ts) |} in
  snd (summarize_history (flatten_turns ts) st) = sent req st
  /\ (forall r t,
         generate_content (requests (world st)) req = Returns r ->
         response_text r = Some t ->
         fst (summarize_history (flatten_turns ts) st) = inr (Py.strip t)
         /\ stripped (Py.strip t))
  /\ (forall r,
         generate_content (requests (world st)) req = Returns r ->
         response_text r = None ->
         fst (summarize_history (flatten_turns ts) st) = inl AttributeError)
  /\ (forall e,
         generate_content (requests (world st)) req = Raises e ->
         fst (summarize_history (flatten_turns ts) st) = inl e).
Proof.
  intros req. unfold summarize_history, bind, lift, call_generate_content.
  rewrite transcript_loop_flatten. cbn [append ret]. fold req.
  destruct (generate_content (requests (world st)) req) as [r|e] eqn:Hcall.
  - destruct (response_text r) as [t|] eqn:Htext; cbn [strip_attr ret raise].
    + split; [reflexivity|]. split; [|split].
      * intros r' t' H Ht'. injection H as <-.
        rewrite Htext in Ht'. injection Ht' as <-.
        split; [reflexivity | apply strip_stripped].
      * intros r' H Hnone. injection H as <-. congruence.
      * discriminate.
    + split; [reflexivity|]. split; [|split].
      * intros r' t' H Ht'. injection H as <-. congruence.
      * reflexivity.
      * discriminate.
  - split; [reflexivity|]. split; [|split]; try discriminate.
    intros e' H. injection H as <-. reflexivity.
Qed.

(** X11.  A message with no parts anywhere in the history makes
    [summarize_history] raise [IndexError] before any request is sent:
    the state is exactly as it was. *)
Theorem summarize_history_empty_parts (history : list message) (st : State) :
  (exists m, In m history /\ parts m = []) ->
  summarize_history history st = (inl IndexError, st).
Proof.
  intros Hbad. unfold summarize_history, bind, lift.
  now rewrite (transcript_loop_empty_parts history EmptyString Hbad).
Qed.

End SummarizeHistory.

Lemma summarize_history_on_turns_witness :
  let client := Double.constant "  a short summary  " in
  let st := start (__init__ "sys" 3 6) in
  fst (summarize_history (flatten_turns [T "1"; T "2"]) st)
  = inr "a short summary"
  /\ stripped "a short summary".
Proof.
  intros client st.
  destruct (summarize_history_on_turns (client := client) [T "1"; T "2"] st)
    as (_ & Hreturns & _).
  apply (Hreturns {| response_text := Some "  a short summary  ";
                     usage_metadata := tt |}
                  "  a short summary  "); reflexivity.
Defined.

Lemma summarize_history_empty_parts_witness :
  let client := Double.constant "unused" in
  let st := start (__init__ "sys" 3 6) in
  summarize_history
    [msg "user" "q1"; {| role := "model"; parts := [] |}] st
  = (inl IndexError, st).
Proof.
  intros client st.
  apply (summarize_history_empty_parts (client := client)).
  exists {| role := "model"; parts := [] |}.
  split; [right; left; reflexivity | reflexivity].
Defined.

(** * Sessions of the manager *)

Section Sessions.

Context {client : Client}.

(** Every outcome of [_compress], with the state it leaves. *)
Lemma compress_outcomes (st : State) :
  (self (snd (_compress st)) = self st
   /\ (exists e, fst (_compress st) = inl e)
   /\ (requests (world (snd (_compress st))) = requests (world st)
       \/ exists req, requests (world (snd (_compress st)))
                      = requests (world st) ++ [req]))
  \/ (exists t conversation_text,
         self (snd (_compress st)) = compressed (Py.strip t) (self st)
         /\ fst (_compress st) = inr tt
         /\ transcript_loop (to_summarize (self st)) (summary_prefix (self st))
            = inr conversation_text
         /\ requests (world (snd (_compress st)))
            = requests (world st) ++ [summarize_request conversation_text]).
Proof.
  rewrite compress_unfold. cbn zeta.
  destruct (transcript_loop _ _) as [e|conversation_text].
  - left. split; [reflexivity|]. split; [eexists; reflexivity|].
    left. reflexivity.
  - destruct (generate_content _ _) as [r|e].
    + destruct (response_text r) as [t|].
      * right. exists t, conversation_text. repeat split.
      * left. split; [reflexivity|]. split; [eexists; reflexivity|].
        right. eexists. reflexivity.
    + left. split; [reflexivity|]. split; [eexists; reflexivity|].
      right. eexists. reflexivity.
Qed.

(** The instance after [add_turn], whether it returned or raised: the turn
    is recorded, and then either nothing more happened or a compression
    went through. *)
Lemma add_turn_self (u m : string) (st : State) :
  self (snd (add_turn u m st)) = recorded u m (self st)
  \/ exists t,
       self (snd (add_turn u m st))
       = compressed (Py.strip t) (recorded u m (self st)).
Proof.
  rewrite add_turn_unfold. destruct (over_threshold _); [|left; reflexivity].
  destruct (compress_outcomes (on_self (recorded u m) st))
    as [(Hself & _)|(t & text & Hself & _)].
  - left. exact Hself.
  - right. exists t. exact Hself.
Qed.

(** The instance after any call: untouched, or with one turn recorded, or
    compressed, or both. *)
Lemma exec_self (c : call) (st : State) :
  self (exec c st) = self st
  \/ (exists t, self (exec c st) = compressed (Py.strip t) (self st))
  \/ (exists u m, self (exec c st) = recorded u m (self st))
  \/ (exists u m t,
         self (exec c st) = compressed (Py.strip t) (recorded u m (self st))).
Proof.
  destruct c as [u m| |new_message|u]; cbn [exec].
  - destruct (add_turn_self u m st) as [H|[t H]].
    + right. right. left. exists u, m. exact H.
    + right. right. right. exists u, m, t. exact H.
  - destruct (compress_outcomes st) as [(H & _)|(t & text & H & _)].
    + left. exact H.
    + right. left. exists t. exact H.
  - rewrite build_context_unfold. left. reflexivity.
  - rewrite chat_unfold. cbn zeta.
    destruct (generate_content _ _) as [r|e]; [|left; reflexivity].
    destruct (response_text r) as [t|]; [|left; reflexivity].
    destruct (add_turn_self u (Py.strip t)
                (sent (chat_request (self st) u) st)) as [H|[t' H]];
      destruct (add_turn _ _ _) as [[e|v] st']; cbn [snd sent self] in *.
    + right. right. left. exists u, (Py.strip t). exact H.
    + right. right. left. exists u, (Py.strip t). exact H.
    + right. right. right. exists u, (Py.strip t), t'. exact H.
    + right. right. right. exists u, (Py.strip t), t'. exact H.
Qed.

(** X12.  No call ever changes the configuration of an instance: the system
    prompt, the window and the threshold stay what the constructor was
    given, whether the call returns or raises. *)
Theorem configuration_is_fixed (c : call) (st : State) :
  system_prompt (self (exec c st)) = system_prompt (self st)
  /\ max_recent_turns (self (exec c st)) = max_recent_turns (self st)
  /\ summarize_threshold (self (exec c st)) = summarize_threshold (self st).
Proof.
  destruct (exec_self c st)
    as [H|[(t & H)|[(u & m & H)|(u & m & t & H)]]];
    rewrite H; repeat split.
Qed.


(** X14.  In every state of a session [summary] is [None] or a text with no
    white space at either end, one that [strip] leaves as it is. *)
Theorem session_summary_is_stripped (st : State) (s : string) :
  reachable st ->
  summary (self st) = Some s ->
  stripped s /\ Py.strip s = s.
Proof.
  intros Hreach. revert s.
  induction Hreach as [sp window threshold w | c st Hreach IH]; intros s Hs.
  - discriminate.
  - assert (Hcases : summary (self (exec c st)) = summary (self st)
                     \/ exists t, summary (self (exec c st))
                                  = Some (Py.strip t)).
    { destruct (exec_self c st)
        as [H|[(t & H)|[(u & m & H)|(u & m & t & H)]]]; rewrite H.
      - left. reflexivity.
      - right. exists t. reflexivity.
      - left. reflexivity.
      - right. exists t. reflexivity. }
    destruct Hcases as [Hsame|(t & Hnew)].
    + apply IH. rewrite <- Hsame. exact Hs.
    + rewrite Hnew in Hs. injection Hs as <-.
      split; [apply strip_stripped | apply stripped_fixed, strip_stripped].
Qed.

End Sessions.


Lemma session_summary_is_stripped_witness :
  let client := Double.constant "  two spaces around  " in
  let st := exec (CallAddTurn "q3" "a3")
              (exec (CallAddTurn "q2" "a2")
                 (exec (CallAddTurn "q1" "a1")
                    (start (__init__ "sys" 1 2)))) in
  summary (self st) = Some "two spaces around"
  /\ stripped "two spaces around"
  /\ Py.strip "two spaces around" = "two spaces around".
Proof.
  intros client st. split; [reflexivity|].
  apply (session_summary_is_stripped (client := client) st).
  - unfold st. do 3 apply reach_call.
    apply (reach_init (client := client) "sys" 1 2 fresh_world).
  - reflexivity.
Defined.

Section Windows.

Context {client : Client}.

(** The turns of a compressed instance, when the turns before were
    whole. *)
Lemma compressed_turns (t : string) (o : ConversationManager)
      (ts : list Turn) :
  recent_turns o = flatten_turns ts ->
  recent_turns (compressed t o)
  = flatten_turns (Py.slice_from ts (- max_recent_turns o))
  /\ to_summarize o = flatten_turns (Py.slice_to ts (- max_recent_turns o)).
Proof.
  intros Hts. cbn [compressed with_recent_turns recent_turns].
  unfold to_keep, to_summarize, keep_count.
  rewrite Hts, slice_from_flatten, slice_to_flatten. split; reflexivity.
Qed.

(** X15.  In every state of a session [full_history] is made of whole turns,
    [recent_turns] is its tail, and [turn_count] counts its turns: what
    compression folds away is a prefix of the record, and the turns kept
    verbatim are always the newest ones. *)
Theorem recent_turns_is_tail_of_full_history (st : State) :
  reachable st ->
  exists folded kept,
    full_history (self st) = flatten_turns (folded ++ kept)
    /\ recent_turns (self st) = flatten_turns kept
    /\ turn_count (self st) = Z.of_nat (length (folded ++ kept)).
Proof.
  induction 1 as [sp window threshold w | c st Hreach IH].
  - exists [], []. repeat split.
  - destruct IH as (folded & kept & Hfull & Hrecent & Hcount).
    assert (Hcompress :
              forall t o f k,
                full_history o = flatten_turns (f ++ k) ->
                recent_turns o = flatten_turns k ->
                turn_count o = Z.of_nat (length (f ++ k)) ->
                exists folded' kept',
                  full_history (compressed t o)
                  = flatten_turns (folded' ++ kept')
                  /\ recent_turns (compressed t o) = flatten_turns kept'
                  /\ turn_count (compressed t o)
                     = Z.of_nat (length (folded' ++ kept'))).
    { intros t o f k Hf Hr Hc.
      exists (f ++ Py.slice_to k (- max_recent_turns o)),
             (Py.slice_from k (- max_recent_turns o)).
      destruct (compressed_turns t o k Hr) as [Hkeep _].
      rewrite <- app_assoc, slice_to_from.
      split; [exact Hf|]. split; [exact Hkeep | exact Hc]. }
    assert (Hrecord :
              forall u m,
                full_history (recorded u m (self st))
                = flatten_turns
                    (folded ++ kept
                     ++ [ {| user_message := u; assistant_message := m |} ])
                /\ recent_turns (recorded u m (self st))
                   = flatten_turns
                       (kept
                        ++ [ {| user_message := u;
                                assistant_message := m |} ])
                /\ turn_count (recorded u m (self st))
                   = Z.of_nat
                       (length
                          (folded ++ kept
                           ++ [ {| user_message := u;
                                   assistant_message := m |} ]))).
    { intros u m. cbn [recorded full_history recent_turns turn_count].
      rewrite Hfull, Hrecent, Hcount, app_assoc.
      rewrite !flatten_turns_app, !length_app, <- !app_assoc.
      cbn [length]. repeat split. lia. }
    destruct (exec_self c st)
      as [H|[(t & H)|[(u & m & H)|(u & m & t & H)]]]; rewrite H.
    + exists folded, kept. repeat split; assumption.
    + apply (Hcompress t (self st) folded kept); assumption.
    + destruct (Hrecord u m) as (Hf & Hr & Hc).
      eexists folded, _. repeat split; eassumption.
    + destruct (Hrecord u m) as (Hf & Hr & Hc).
      apply (Hcompress t (recorded u m (self st)) folded _ Hf Hr Hc).
Qed.

(** X16.  With a window that is positive and no larger than the threshold, an
    [add_turn] that returns leaves at most [summarize_threshold] turns in
    [recent_turns], whatever was there before: the window is bounded at
    every point where the caller has control without an exception. *)
Theorem add_turn_bounds_the_window (u m : string) (st st' : State) :
  0 < max_recent_turns (self st) <= summarize_threshold (self st) ->
  add_turn u m st = (inr tt, st') ->
  Z.of_nat (turns_in (recent_turns (self st'))) <= summarize_threshold (self st).
Proof.
  intros Hcfg. rewrite add_turn_unfold. unfold over_threshold.
  fold (turns_in (recent_turns (recorded u m (self st)))).
  change (summarize_threshold (recorded u m (self st)))
    with (summarize_threshold (self st)).
  destruct (Z.gtb_spec
              (Z.of_nat (turns_in (recent_turns (recorded u m (self st)))))
              (summarize_threshold (self st))) as [Hover|Hunder].
  - intros Hrun.
    destruct (compress_returns_inv _ _ Hrun)
      as (text & r & t & _ & _ & _ & Hself & _).
    rewrite Hself.
    cbn [compressed with_recent_turns recent_turns on_self self].
    unfold to_keep, keep_count, Py.slice_from, turns_in in *.
    change (max_recent_turns (recorded u m (self st)))
      with (max_recent_turns (self st)).
    rewrite length_skipn, slice_bound_tail by div2_lia.
    div2_lia.
  - intros H. injection H as <-. exact Hunder.
Qed.

(** X17.  A call never rewrites the list of requests, it only adds to it:
    [build_context] adds nothing, [_compress] and [add_turn] add at most
    one request, [chat] adds one or two.  An [add_turn] that stays within
    the threshold sends nothing at all. *)
Theorem requests_are_append_only (c : call) (st : State) :
  exists new,
    requests (world (exec c st)) = requests (world st) ++ new
    /\ (length new <= 2)%nat
    /\ (forall new_message, c = CallBuildContext new_message -> new = [])
    /\ (c = CallCompress -> (length new <= 1)%nat)
    /\ (forall u m, c = CallAddTurn u m ->
          (length new <= 1)%nat
          /\ (over_threshold (recorded u m (self st)) = false -> new = []))
    /\ (forall u, c = CallChat u -> (1 <= length new)%nat).
Proof.
  assert (Hcompress :
            forall s, exists new,
              requests (world (snd (_compress s)))
              = requests (world s) ++ new /\ (length new <= 1)%nat).
  { intros s.
    destruct (compress_outcomes s)
      as [(_ & _ & [H|(req & H)])|(t & text & _ & _ & _ & H)].
    - exists []. rewrite app_nil_r. split; [exact H | cbn; lia].
    - exists [req]. split; [exact H | cbn; lia].
    - eexists [_]. split; [exact H | cbn; lia]. }
  assert (Hadd :
            forall u m s, exists new,
              requests (world (snd (add_turn u m s)))
              = requests (world s) ++ new /\ (length new <= 1)%nat
              /\ (over_threshold (recorded u m (self s)) = false -> new = [])).
  { intros u m s. rewrite add_turn_unfold.
    destruct (over_threshold _).
    - destruct (Hcompress (on_self (recorded u m) s)) as (new & H & Hlen).
      exists new. split; [exact H|]. split; [exact Hlen | discriminate].
    - exists []. cbn [snd on_self world]. rewrite app_nil_r.
      repeat split. cbn. lia. }
  destruct c as [u m| |new_message|u]; cbn [exec].
  - destruct (Hadd u m st) as (new & H & Hlen & Hnone).
    exists new. split; [exact H|]. split; [lia|].
    split; [intros ? Hc; discriminate Hc|].
    split; [intros Hc; discriminate Hc|].
    split; [|intros ? Hc; discriminate Hc].
    intros u' m' Hc. injection Hc as <- <-. split; assumption.
  - destruct (Hcompress st) as (new & H & Hlen).
    exists new. split; [exact H|]. split; [lia|].
    split; [intros ? Hc; discriminate Hc|].
    split; [intros _; exact Hlen|].
    split; [intros ? ? Hc; discriminate Hc | intros ? Hc; discriminate Hc].
  - exists []. rewrite build_context_unfold, app_nil_r. cbn [snd length].
    split; [reflexivity|]. split; [lia|].
    split; [reflexivity|].
    split; [intros Hc; discriminate Hc|].
    split; [intros ? ? Hc; discriminate Hc | intros ? Hc; discriminate Hc].
  - rewrite chat_unfold. cbn zeta.
    set (req := chat_request (self st) u).
    assert (Hshape :
              forall new s',
                requests (world s') = requests (world st) ++ req :: new ->
                (length new <= 1)%nat ->
                exists new',
                  requests (world s') = requests (world st) ++ new'
                  /\ (length new' <= 2)%nat
                  /\ (forall new_message,
                         CallChat u = CallBuildContext new_message ->
                         new' = [])
                  /\ (CallChat u = CallCompress -> (length new' <= 1)%nat)
                  /\ (forall u0 m, CallChat u = CallAddTurn u0 m ->
                         (length new' <= 1)%nat
                         /\ (over_threshold (recorded u0 m (self st)) = false
                             -> new' = []))
                  /\ (forall u0, CallChat u = CallChat u0 ->
                         (1 <= length new')%nat)).
    { intros new s' H Hlen. exists (req :: new).
      split; [exact H|]. cbn [length]. split; [lia|].
      split; [intros ? Hc; discriminate Hc|].
      split; [intros Hc; discriminate Hc|].
      split; [intros ? ? Hc; discriminate Hc | intros ? _; lia]. }
    destruct (generate_content _ _) as [r|e].
    + destruct (response_text r) as [t|].
      * destruct (Hadd u (Py.strip t) (sent req st)) as (new & H & Hlen & _).
        apply (Hshape new); [|exact Hlen].
        destruct (add_turn _ _ _) as [[e|v] st']; cbn [snd] in *;
          rewrite H; cbn [sent world requests];
          rewrite <- app_assoc; reflexivity.
      * apply (Hshape []); [reflexivity | cbn; lia].
    + apply (Hshape []); [reflexivity | cbn; lia].
Qed.

End Windows.
Lemma recent_turns_is_tail_of_full_history_witness :
  let client := Double.constant "S" in
  let st := exec (CallAddTurn "q3" "a3")
              (exec (CallChat "q2")
                 (exec (CallAddTurn "q1" "a1")
                    (start (__init__ "sys" 1 2)))) in
  exists folded kept,
    full_history (self st) = flatten_turns (folded ++ kept)
    /\ recent_turns (self st) = flatten_turns kept
    /\ turn_count (self st) = Z.of_nat (length (folded ++ kept)).
Proof.
  intros client st.
  apply (recent_turns_is_tail_of_full_history (client := client) st).
  unfold st. do 3 apply reach_call.
  apply (reach_init (client := client) "sys" 1 2 fresh_world).
Defined.

Lemma add_turn_bounds_the_window_witness :
  let client := Double.constant "S" in
  let st := start (extended [T "1"; T "2"; T "3"; T "4"; T "5"; T "6"]
                     (__init__ "sys" 2 4)) in
  Z.of_nat (turns_in (recent_turns (self (snd (add_turn "q7" "a7" st))))) <= 4.
Proof.
  intros client st.
  apply (add_turn_bounds_the_window (client := client) "q7" "a7" st
           (snd (add_turn "q7" "a7" st))).
  - vm_compute. split; [reflexivity | discriminate].
  - vm_compute. reflexivity.
Defined.

Lemma requests_are_append_only_witness :
  let client := Double.constant "S" in
  let st := start (extended [T "1"; T "2"] (__init__ "sys" 1 2)) in
  exists new,
    requests (world (exec (CallChat "q3") st)) = requests (world st) ++ new
    /\ (1 <= length new <= 2)%nat.
Proof.
  intros client st.
  destruct (requests_are_append_only (client := client) (CallChat "q3") st)
    as (new & Hnew & Hle & _ & _ & _ & Hchat).
  exists new. split; [exact Hnew|]. split; [|exact Hle].
  apply (Hchat "q3"). reflexivity.
Defined.

Section Crossing.

Context {client : Client}.

Lemma add_turns_app (a b : list Turn) (st : State) :
  add_turns (a ++ b) st
  = match add_turns a st with
    | (inr _, st') => add_turns b st'
    | (inl e, st') => (inl e, st')
    end.
Proof.
  revert st. induction a as [|t a IH]; intros st; [reflexivity|].
  cbn [Datatypes.app add_turns]. unfold bind.
  destruct (add_turn _ _ st) as [[e|v] st1]; [reflexivity|]. apply IH.
Qed.

(** X18.  The first compression of a session.  On a new instance with threshold
    [n], the first [n] turns are only recorded, and the turn after them
    sends one request: the transcript of all turns but the last
    [max_recent_turns], with no heading for a previous summary.  When the
    service answers, [summary] is the stripped answer, [recent_turns] is
    the kept tail, [full_history] is everything and [turn_count] is
    [n + 1]. *)
Theorem first_compression
        (sp : string) (window : Z) (w : World)
        (ts : list Turn) (t : Turn) (r : response usage) (answer : string) :
  let all := ts ++ [t] in
  let req := summarize_request
               (transcript_of_turns (Py.slice_to all (- window))) in
  generate_content (requests w) req = Returns r ->
  response_text r = Some answer ->
  exists st',
    add_turns all {| self := __init__ sp window (Z.of_nat (length ts));
                     world := w |}
    = (inr tt, st')
    /\ self st'
       = {| system_prompt := sp;
            max_recent_turns := window;
            summarize_threshold := Z.of_nat (length ts);
            full_history := flatten_turns all;
            summary := Some (Py.strip answer);
            recent_turns := flatten_turns (Py.slice_from all (- window));
            turn_count := Z.of_nat (length ts) + 1 |}
    /\ requests (world st') = requests w ++ [req].
Proof.
  intros all req Hcall Htext. subst req all.
  rewrite add_turns_app, add_turns_below_threshold
    by (cbn [self __init__ recent_turns summarize_threshold];
        change (turns_in []) with 0%nat; lia).
  cbn [add_turns]. unfold bind.
  set (st0 := on_self (extended ts)
                {| self := __init__ sp window (Z.of_nat (length ts));
                   world := w |}).
  assert (Hrec : recent_turns
                   (recorded (user_message t) (assistant_message t) (self st0))
                 = flatten_turns (ts ++ [t])).
  { cbn [st0 on_self self recorded extended __init__ recent_turns Datatypes.app].
    rewrite flatten_turns_app, <- app_assoc. reflexivity. }
  rewrite add_turn_unfold.
  assert (Hover : over_threshold
                    (recorded (user_message t) (assistant_message t) (self st0))
                  = true).
  { unfold over_threshold. rewrite Hrec.
    fold (turns_in (flatten_turns (ts ++ [t]))).
    rewrite turns_in_flatten, length_app.
    cbn [recorded st0 on_self self extended __init__ summarize_threshold length].
    destruct (Z.gtb_spec (Z.of_nat (length ts + 1)) (Z.of_nat (length ts)));
      [reflexivity | lia]. }
  rewrite Hover.
  set (st1 := on_self (recorded (user_message t) (assistant_message t)) st0).
  assert (Hloop : transcript_loop (to_summarize (self st1))
                    (summary_prefix (self st1))
                  = inr (transcript_of_turns
                           (Py.slice_to (ts ++ [t]) (- window)))).
  { unfold to_summarize, keep_count.
    change (recent_turns (self st1))
      with (recent_turns
              (recorded (user_message t) (assistant_message t) (self st0))).
    rewrite Hrec.
    change (max_recent_turns (self st1)) with window.
    rewrite slice_to_flatten, transcript_loop_flatten. reflexivity. }
  rewrite compress_unfold. cbn zeta. rewrite Hloop.
  change (requests (world st1)) with (requests w).
  rewrite Hcall, Htext.
  eexists. split; [reflexivity|].
  cbn [self printed on_self sent world requests]. split; [|reflexivity].
  unfold compressed, to_keep, keep_count.
  change (recent_turns (self st1))
    with (recent_turns
            (recorded (user_message t) (assistant_message t) (self st0))).
  rewrite Hrec. change (max_recent_turns (self st1)) with window.
  rewrite slice_from_flatten.
  unfold st1, st0, on_self, with_recent_turns, with_summary, recorded,
    extended, __init__.
  cbn [self system_prompt max_recent_turns summarize_threshold
       full_history summary recent_turns turn_count Datatypes.app].
  f_equal.
  rewrite flatten_turns_app, <- app_assoc. reflexivity.
Qed.

(** X19.  While [recent_turns] is over the threshold, as it is after a
    compression that failed, every further [add_turn] attempts the
    compression again, on the record with the new turn in it. *)
Theorem add_turn_retries_compression (u m : string) (st : State) :
  over_threshold (self st) = true ->
  add_turn u m st = _compress (on_self (recorded u m) st)
  /\ recent_turns (self (on_self (recorded u m) st))
     = recent_turns (self st) ++ [msg "user" u; msg "model" m].
Proof.
  unfold over_threshold. intros Hover.
  rewrite add_turn_unfold. unfold over_threshold.
  cbn [recorded recent_turns summarize_threshold on_self self].
  fold (turns_in ((recent_turns (self st) ++ [msg "user" u])
                   ++ [msg "model" m])).
  rewrite turns_in_snoc. fold (turns_in (recent_turns (self st))) in Hover.
  destruct (Z.gtb_spec (Z.of_nat (turns_in (recent_turns (self st))))
                       (summarize_threshold (self st))) as [Hgt|]; [|discriminate].
  destruct (Z.gtb_spec (Z.of_nat (S (turns_in (recent_turns (self st)))))
                       (summarize_threshold (self st))); [|lia].
  rewrite <- app_assoc. split; reflexivity.
Qed.

End Crossing.

Lemma first_compression_witness :
  let client := Double.constant " the summary " in
  exists st',
    add_turns ([T "1"; T "2"; T "3"; T "4"] ++ [T "5"])
      (start (__init__ "sys" 2 4))
    = (inr tt, st')
    /\ summary (self st') = Some "the summary"
    /\ recent_turns (self st') = flatten_turns [T "4"; T "5"]
    /\ turn_count (self st') = 5.
Proof.
  intros client.
  destruct (first_compression (client := client) "sys" 2 fresh_world
              [T "1"; T "2"; T "3"; T "4"] (T "5")
              {| response_text := Some " the summary "; usage_metadata := tt |}
              " the summary " eq_refl eq_refl)
    as (st' & Hrun & Hself & _).
  exists st'. split; [exact Hrun|]. rewrite Hself. repeat split.
Defined.

(** The fifth turn meets a failing service, the sixth a working one: the
    second attempt folds the four oldest turns at once. *)
Lemma add_turn_retries_compression_witness :
  let client := Double.scripted [Raises (ServiceError "503"); Double.says "S"] in
  let st := snd (add_turns [T "1"; T "2"; T "3"; T "4"; T "5"]
                   (start (__init__ "sys" 2 4))) in
  summary (self st) = None
  /\ recent_turns (self st) = flatten_turns [T "1"; T "2"; T "3"; T "4"; T "5"]
  /\ add_turn "q6" "a6" st = _compress (on_self (recorded "q6" "a6") st)
  /\ summary (self (snd (add_turn "q6" "a6" st))) = Some "S"
  /\ recent_turns (self (snd (add_turn "q6" "a6" st)))
     = flatten_turns [T "5"; T "6"].
Proof.
  intros client st. split; [reflexivity|]. split; [reflexivity|].
  split; [|split; reflexivity].
  apply (add_turn_retries_compression (client := client) "q6" "a6" st).
  reflexivity.
Defined.

Section Conversations.

Context {client : Client}.

Lemma roles_of_turns (ts : list Turn) (new_message : string) :
  map role (flatten_turns ts ++ [msg "user" new_message])
  = alternating (length ts).
Proof.
  induction ts as [|t ts IH]; [reflexivity|].
  change (flatten_turns (t :: ts))
    with (msg "user" (user_message t)
          :: msg "model" (assistant_message t) :: flatten_turns ts).
  cbn [Datatypes.app map length alternating msg role]. now rewrite IH.
Qed.

(** X20.  In every state of a session the context that [build_context] returns
    begins with the user, alternates between user and model, and ends with
    the user: the summary exchange, when present, and every recorded turn
    are one user message followed by one model message, and each message
    has exactly one part. *)
Theorem context_alternates_roles (st : State) (new_message : string) :
  reachable st ->
  exists context n,
    build_context new_message st = (inr context, st)
    /\ map role context = alternating n
    /\ length context = (2 * n + 1)%nat
    /\ Forall (fun m => length (parts m) = 1%nat) context.
Proof.
  intros Hreach. destruct (reachable_recent_turns st Hreach) as [ts Hts].
  rewrite build_context_unfold, Hts. unfold summary_exchange.
  assert (Hparts : Forall (fun m => length (parts m) = 1%nat)
                     (flatten_turns ts ++ [msg "user" new_message])).
  { apply Forall_app. split; [|repeat constructor].
    clear Hts. induction ts as [|t ts IH]; [constructor|].
    repeat constructor. exact IH. }
  destruct (Py.truthy (summary (self st))).
  - eexists. exists (S (length ts)). split; [reflexivity|].
    cbn [Datatypes.app map alternating msg role length].
    rewrite roles_of_turns, length_app, flatten_turns_length.
    split; [reflexivity|]. split; [cbn [length]; lia|].
    repeat constructor. exact Hparts.
  - eexists. exists (length ts). split; [reflexivity|].
    cbn [Datatypes.app].
    rewrite roles_of_turns, length_app, flatten_turns_length.
    split; [reflexivity|]. split; [cbn [length]; lia | exact Hparts].
Qed.

(** X21.  When [chat] returns, the completion call answered with a text for the
    context [build_context] made; the reply is that text stripped, the
    usage is the one of the response, and the turn made of the user
    message and the reply is at the end of [full_history], with
    [turn_count] one higher. *)
Theorem chat_returns_the_stripped_reply
        (st st' : State) (user_message reply : string) (us : usage) :
  chat user_message st = (inr (reply, us), st') ->
  exists context r t,
    fst (build_context user_message st) = inr context
    /\ generate_content (requests (world st))
         {| model := MODEL;
            system_instruction := system_prompt (self st);
            req_contents := Messages context |} = Returns r
    /\ response_text r = Some t
    /\ reply = Py.strip t
    /\ stripped reply
    /\ us = usage_metadata r
    /\ full_history (self st')
       = full_history (self st)
         ++ [msg "user" user_message; msg "model" reply]
    /\ turn_count (self st') = turn_count (self st) + 1.
Proof.
  rewrite chat_unfold, build_context_unfold. cbn zeta. cbn [fst].
  unfold chat_request at 1.
  destruct (generate_content _ _) as [r|e] eqn:Hcall; [|discriminate].
  destruct (response_text r) as [t|] eqn:Htext; [|discriminate].
  destruct (add_turn_frame user_message (Py.strip t)
              (sent (chat_request (self st) user_message) st)) as [Hh Hc].
  destruct (add_turn _ _ _) as [[e|v] st1]; [discriminate|].
  intros H. injection H as <- <- <-. cbn [snd sent self] in Hh, Hc.
  eexists _, r, t. repeat split; try eassumption; try reflexivity.
  - intros c rest. apply strip_stripped.
  - apply strip_stripped.
Qed.

(** X22.  When the completion call answers but the compression that the new
    turn triggers raises, [chat] raises: the caller does not get the
    reply.  The turn is recorded all the same, in [full_history] and at
    the end of [recent_turns], and counted. *)
Theorem chat_loses_reply_when_compression_fails
        (st st' : State) (user_message t : string) (r : response usage)
        (context : list message) (e : exn) :
  fst (build_context user_message st) = inr context ->
  let req := {| model := MODEL;
                system_instruction := system_prompt (self st);
                req_contents := Messages context |} in
  generate_content (requests (world st)) req = Returns r ->
  response_text r = Some t ->
  add_turn user_message (Py.strip t) (sent req st) = (inl e, st') ->
  chat user_message st = (inl e, st')
  /\ full_history (self st')
     = full_history (self st)
       ++ [msg "user" user_message; msg "model" (Py.strip t)]
  /\ recent_turns (self st')
     = recent_turns (self st)
       ++ [msg "user" user_message; msg "model" (Py.strip t)]
  /\ turn_count (self st') = turn_count (self st) + 1.
Proof.
  rewrite build_context_unfold. cbn [fst]. intros H. injection H as <-.
  cbn zeta. fold (chat_request (self st) user_message).
  intros Hcall Htext Hadd.
  rewrite chat_unfold. cbn zeta. rewrite Hcall, Htext, Hadd.
  split; [reflexivity|].
  destruct (add_turn_raises_inv _ _ _ _ _ Hadd) as (_ & _ & Hself).
  rewrite Hself. cbn [sent self recorded full_history recent_turns turn_count].
  rewrite <- !app_assoc. repeat split.
Qed.

(** X23.  A compression whose window is zero, or at least as large as the
    record, folds nothing: it still sends a request, holding only the
    heading and text of the previous summary if there is one, and when it
    returns [recent_turns] is exactly what it was. *)
Theorem compress_with_nothing_to_fold (st st' : State) :
  max_recent_turns (self st) = 0
  \/ Z.of_nat (length (recent_turns (self st)))
     <= max_recent_turns (self st) * 2 ->
  _compress st = (inr tt, st') ->
  recent_turns (self st') = recent_turns (self st)
  /\ requests (world st')
     = requests (world st) ++ [summarize_request (summary_prefix (self st))].
Proof.
  intros Hcfg Hrun.
  assert (Hbound : Py.slice_bound (- keep_count (self st))
                     (length (recent_turns (self st))) = 0%nat).
  { unfold Py.slice_bound, keep_count.
    destruct (Z.ltb_spec (- (max_recent_turns (self st) * 2)) 0); lia. }
  destruct (compress_returns_inv _ _ Hrun)
    as (text & r & t & Hloop & _ & _ & Hself & Hreq).
  unfold to_summarize, Py.slice_to in Hloop. rewrite Hbound in Hloop.
  cbn [firstn transcript_loop] in Hloop. injection Hloop as <-.
  split; [|exact Hreq].
  rewrite Hself. cbn [compressed with_recent_turns recent_turns].
  unfold to_keep, Py.slice_from. rewrite Hbound. reflexivity.
Qed.

End Conversations.

Lemma context_alternates_roles_witness :
  let client := Double.constant "S" in
  let st := exec (CallAddTurn "q3" "a3")
              (exec (CallAddTurn "q2" "a2")
                 (exec (CallAddTurn "q1" "a1")
                    (start (__init__ "sys" 1 2)))) in
  exists context n,
    build_context "q4" st = (inr context, st)
    /\ map role context = alternating n
    /\ length context = (2 * n + 1)%nat
    /\ Forall (fun m => length (parts m) = 1%nat) context.
Proof.
  intros client st.
  apply (context_alternates_roles (client := client) st "q4").
  unfold st. do 3 apply reach_call.
  apply (reach_init (client := client) "sys" 1 2 fresh_world).
Defined.

Lemma chat_returns_the_stripped_reply_witness :
  let client := Double.constant " hello " in
  let st := start (__init__ "sys" 3 6) in
  exists context r t,
    fst (build_context "hi" st) = inr context
    /\ generate_content (requests (world st))
         {| model := MODEL;
            system_instruction := system_prompt (self st);
            req_contents := Messages context |} = Returns r
    /\ response_text r = Some t
    /\ "hello" = Py.strip t
    /\ stripped "hello"
    /\ tt = usage_metadata r
    /\ full_history (self (snd (chat "hi" st)))
       = full_history (self st) ++ [msg "user" "hi"; msg "model" "hello"]
    /\ turn_count (self (snd (chat "hi" st))) = turn_count (self st) + 1.
Proof.
  intros client st.
  apply (chat_returns_the_stripped_reply (client := client) st
           (snd (chat "hi" st)) "hi" "hello" tt).
  reflexivity.
Defined.

Lemma chat_loses_reply_when_compression_fails_witness :
  let client :=
    Double.scripted [Double.says " a3 "; Raises (ServiceError "503")] in
  let st := start (extended [T "1"; T "2"] (__init__ "sys" 1 2)) in
  fst (chat "q3" st) = inl (ServiceError "503")
  /\ recent_turns (self (snd (chat "q3" st)))
     = flatten_turns [T "1"; T "2"; T "3"]
  /\ turn_count (self (snd (chat "q3" st))) = 3.
Proof.
  intros client st.
  assert (H := chat_loses_reply_when_compression_fails (client := client)
                 st (snd (chat "q3" st)) "q3" " a3 "
                 {| response_text := Some " a3 "; usage_metadata := tt |}
                 (flatten_turns [T "1"; T "2"] ++ [msg "user" "q3"])
                 (ServiceError "503") eq_refl).
  cbn zeta in H.
  destruct H as (Hrun & _ & Hrecent & Hcount);
    [reflexivity | reflexivity | vm_compute; reflexivity |].
  split; [rewrite Hrun; reflexivity|]. split; [exact Hrecent | exact Hcount].
Defined.

Lemma compress_with_nothing_to_fold_witness :
  let client := Double.constant "S" in
  let st := start (with_summary (Some "earlier")
                     (extended [T "1"; T "2"; T "3"; T "4"]
                        (__init__ "sys" 5 3))) in
  recent_turns (self (snd (_compress st))) = recent_turns (self st)
  /\ requests (world (snd (_compress st)))
     = [summarize_request ("Previous summary: earlier" +++ Py.LF +++ Py.LF)].
Proof.
  intros client st.
  apply (compress_with_nothing_to_fold (client := client) st
           (snd (_compress st))).
  - right. vm_compute. discriminate.
  - reflexivity.
Defined.
